(** * Prompts: typed-utterance recognition and retry orchestration

    A shallow embedding of [Node/src/dialogs/Prompts.ts] (Bot Builder SDK):
    the recognizer [SimplePromptRecognizer] (cancellation check, per-kind
    scoring, confidence arbitration) and the dialog [Prompts] ([begin],
    [replyReceived], [formatPrompt]), followed by the properties the
    specification states about them.

    Conventions of the embedding.
    - A JavaScript string is a [string]; every character stands for one
      UTF-16 code unit in the range 0..255, so [String.length] is the
      [.length] of the source.
    - A JavaScript number that comes out of parsing or scoring is a
      [number]: not-a-number, positive infinity or the rational it denotes.
      The retry counter, the reference date and the channel capacity are
      integers ([Z]), as the configuration surface declares them.
    - An optional property is an [option]; [None] is [undefined].
    - Callbacks are kept: a command acts on the [Session], and [recognize]
      receives the continuation that [replyReceived] passes to it.
    - A collaborator that lives outside this module (entity recognition,
      channel capabilities, the session's arbitration, the random choice
      among prompt variants, the formatting of a text with arguments) is a
      field of [Collaborators].
    - The message of a [Session] has a text. A message that arrives
      without one is an [Incoming] of [Conversation], where the turn is
      modelled from the arrival of the message on. *)

From Stdlib Require Import ZArith QArith List Ascii String Bool Lia.
From Stdlib Require Import DecimalString DecimalNat.
From Stdlib Require Qcanon.
From stdpp Require Import base option strings gmap.

(** ** Strings *)

Module Str.

(** White space removed by [String.prototype.trim], among the code units
    0..255: TAB, LF, VT, FF, CR, SPACE and NO-BREAK SPACE. *)
Definition isWhiteSpace (c : ascii) : bool :=
  let n := N_of_ascii c in
  ((9 <=? n)%N && (n <=? 13)%N) || (n =? 32)%N || (n =? 160)%N.

Fixpoint trimStart (s : string) : string :=
  match s with
  | EmptyString => EmptyString
  | String c s' => if isWhiteSpace c then trimStart s' else s
  end.

Fixpoint trimEnd (s : string) : string :=
  match s with
  | EmptyString => EmptyString
  | String c s' =>
      match trimEnd s' with
      | EmptyString => if isWhiteSpace c then EmptyString else String c EmptyString
      | t => String c t
      end
  end.

(** [s.trim()] *)
Definition trim (s : string) : string := trimEnd (trimStart s).

Definition isLower (c : ascii) : bool :=
  let n := N_of_ascii c in (97 <=? n)%N && (n <=? 122)%N.

Definition isUpper (c : ascii) : bool :=
  let n := N_of_ascii c in (65 <=? n)%N && (n <=? 90)%N.

(** Canonicalisation of a code unit under the [i] flag of a regular
    expression. The source's pattern holds only letters a..z and the
    space; a code unit above 127 never canonicalises to one below 128, so
    against this pattern only the folding of a..z matters. *)
Definition canonicalize (c : ascii) : ascii :=
  if isLower c then ascii_of_N (N_of_ascii c - 32) else c.

Definition toLowerChar (c : ascii) : ascii :=
  if isUpper c then ascii_of_N (N_of_ascii c + 32) else c.

Fixpoint toLowerCase (s : string) : string :=
  match s with
  | EmptyString => EmptyString
  | String c s' => String (toLowerChar c) (toLowerCase s')
  end.

(** The literal [pat] matched at the start of [s], ignoring case. *)
Fixpoint matchesAtStart (pat s : string) : bool :=
  match pat with
  | EmptyString => true
  | String p pat' =>
      match s with
      | EmptyString => false
      | String c s' =>
          if decide (canonicalize p = canonicalize c) then matchesAtStart pat' s' else false
      end
  end.

(** The decimal rendering of a natural number, as string concatenation
    with a number produces it. *)
Definition ofNat (n : nat) : string := NilZero.string_of_uint (Nat.to_uint n).

End Str.

(** ** Numbers *)

Inductive number :=
| NaN
| Infinity
| Num (q : Q).

Definition isNaN (n : number) : bool :=
  match n with NaN => true | _ => false end.

(** [n > 0] *)
Definition gtZero (n : number) : bool :=
  match n with
  | NaN => false
  | Infinity => true
  | Num q => negb (Qle_bool q 0)
  end.

(** [n <= k] for an array length [k] *)
Definition leLength (n : number) (k : nat) : bool :=
  match n with
  | Num q => Qle_bool q (inject_Z (Z.of_nat k))
  | _ => false
  end.

(** [a / b] for two string lengths *)
Definition divLengths (a b : nat) : number :=
  match b, a with
  | O, O => NaN
  | O, S _ => Infinity
  | S _, _ => Num (Z.of_nat a # Pos.of_nat b)
  end.

(** [values[n - 1]]: an element when [n - 1] is an integer within the
    array, [undefined] otherwise. *)
Definition elementBefore (values : list string) (n : number) : option string :=
  match n with
  | Num q =>
      let r := Qred (q - 1) in
      if ((Qden r =? 1)%positive && (0 <=? Qnum r)%Z)%bool
      then nth_error values (Z.to_nat (Qnum r))
      else None
  | _ => None
  end.

(** ** Exceptions *)

Record Error := { errorMessage : string }.

(** A thrown value: an [Error] object, or another value, of which the
    source uses only [toString()]. *)
Inductive thrown :=
| ThrownError (e : Error)
| ThrownValue (toString : string).

Inductive completion (A : Type) :=
| Normal (a : A)
| Throw (t : thrown).
Arguments Normal {A} a.
Arguments Throw {A} t.

#[global] Instance completion_ret : MRet completion := fun A a => Normal a.

#[global] Instance completion_bind : MBind completion := fun A B k c =>
  match c with
  | Normal a => k a
  | Throw t => Throw t
  end.

(** Reading a property of [undefined] *)
Definition typeError (property : string) : thrown :=
  ThrownError {| errorMessage := "Cannot read property '" +:+ property +:+ "' of undefined" |}.

(** [err instanceof Error ? err : new Error(err.toString())] *)
Definition asError (t : thrown) : Error :=
  match t with
  | ThrownError e => e
  | ThrownValue s => {| errorMessage := s |}
  end.

(** ** Data model *)

Module PromptType.
Inductive t := text | number | confirm | choice | time.
End PromptType.

Module ListStyle.
Inductive t := none | inline | list | button | auto.
End ListStyle.

(** Modelled from the spec: the enumeration [ResumeReason] of [Dialog.ts],
    which is not part of this module; the recognition outcome's resume
    reason is one of Completed, NotCompleted and Canceled. *)
Module ResumeReason.
Inductive t := completed | notCompleted | canceled.
End ResumeReason.

#[global] Instance PromptType_eq_dec : EqDecision PromptType.t.
Proof. solve_decision. Defined.
#[global] Instance ListStyle_eq_dec : EqDecision ListStyle.t.
Proof. solve_decision. Defined.
#[global] Instance ResumeReason_eq_dec : EqDecision ResumeReason.t.
Proof. solve_decision. Defined.

(** A selectable action [{ title, message }] of an attachment. *)
Record IAction := { title : string; message : string }.

Record IAttachment := { actions : list IAction }.

(** The part of a message this module reads or builds. [text] is optional
    in the source; here a message has one, as every message the dialog
    builds and every message it interprets. The arrival of a message
    without text is modelled in [Conversation]. *)
Module IMessage.
Record t := {
  text : string;
  language : option string;
  attachments : list IAttachment
}.
End IMessage.

(** [string | string[] | IMessage] *)
Inductive PromptContent :=
| Literal (s : string)
| Variants (prompts : list string)
| Composed (m : IMessage.t).

(** A value stored under a key outside the interface [IPromptArgs]. *)
Inductive jsval :=
| JUndefined
| JBoolean (b : bool)
| JNumber (z : Z)
| JString (s : string).

(** An argument bag: the properties [IPromptArgs] declares, each present or
    not, and the own properties under any other key. [maxRetries] is the
    retry counter once the bag is the dialog's persisted data; [None] there
    stands for a counter that is not a number. *)
Module IPromptArgs.
Record t := {
  promptType : option PromptType.t;
  prompt : option PromptContent;
  enumValues : option (list string);
  retryPrompt : option PromptContent;
  maxRetries : option Z;
  refDate : option Z;
  listStyle : option ListStyle.t;
  others : gmap string jsval
}.

(** [{}] *)
Definition empty : t :=
  {| promptType := None; prompt := None; enumValues := None; retryPrompt := None;
     maxRetries := None; refDate := None; listStyle := None; others := ∅ |}.

Definition setPromptType v a :=
  {| promptType := v; prompt := prompt a; enumValues := enumValues a;
     retryPrompt := retryPrompt a; maxRetries := maxRetries a; refDate := refDate a;
     listStyle := listStyle a; others := others a |}.
Definition setPrompt v a :=
  {| promptType := promptType a; prompt := v; enumValues := enumValues a;
     retryPrompt := retryPrompt a; maxRetries := maxRetries a; refDate := refDate a;
     listStyle := listStyle a; others := others a |}.
Definition setEnumValues v a :=
  {| promptType := promptType a; prompt := prompt a; enumValues := v;
     retryPrompt := retryPrompt a; maxRetries := maxRetries a; refDate := refDate a;
     listStyle := listStyle a; others := others a |}.
Definition setRetryPrompt v a :=
  {| promptType := promptType a; prompt := prompt a; enumValues := enumValues a;
     retryPrompt := v; maxRetries := maxRetries a; refDate := refDate a;
     listStyle := listStyle a; others := others a |}.
Definition setMaxRetries v a :=
  {| promptType := promptType a; prompt := prompt a; enumValues := enumValues a;
     retryPrompt := retryPrompt a; maxRetries := v; refDate := refDate a;
     listStyle := listStyle a; others := others a |}.
Definition setRefDate v a :=
  {| promptType := promptType a; prompt := prompt a; enumValues := enumValues a;
     retryPrompt := retryPrompt a; maxRetries := maxRetries a; refDate := v;
     listStyle := listStyle a; others := others a |}.
Definition setListStyle v a :=
  {| promptType := promptType a; prompt := prompt a; enumValues := enumValues a;
     retryPrompt := retryPrompt a; maxRetries := maxRetries a; refDate := refDate a;
     listStyle := v; others := others a |}.
Definition setOthers v a :=
  {| promptType := promptType a; prompt := prompt a; enumValues := enumValues a;
     retryPrompt := retryPrompt a; maxRetries := maxRetries a; refDate := refDate a;
     listStyle := listStyle a; others := v |}.

(** The value of a property, whatever its key. *)
Inductive value :=
| VPromptType (v : PromptType.t)
| VContent (v : PromptContent)
| VStrings (v : list string)
| VInteger (v : Z)
| VListStyle (v : ListStyle.t)
| VOther (v : jsval).

(** [a[key]] for an own property, [None] when [a] has no such property.
    A key of the interface is read from its field. *)
Definition get (a : t) (key : string) : option value :=
  if decide (key = "promptType") then VPromptType <$> promptType a
  else if decide (key = "prompt") then VContent <$> prompt a
  else if decide (key = "enumValues") then VStrings <$> enumValues a
  else if decide (key = "retryPrompt") then VContent <$> retryPrompt a
  else if decide (key = "maxRetries") then VInteger <$> maxRetries a
  else if decide (key = "refDate") then VInteger <$> refDate a
  else if decide (key = "listStyle") then VListStyle <$> listStyle a
  else VOther <$> others a !! key.

(** [dst[key] = src[key]] *)
Definition copy (key : string) (src dst : t) : t :=
  if decide (key = "promptType") then setPromptType (promptType src) dst
  else if decide (key = "prompt") then setPrompt (prompt src) dst
  else if decide (key = "enumValues") then setEnumValues (enumValues src) dst
  else if decide (key = "retryPrompt") then setRetryPrompt (retryPrompt src) dst
  else if decide (key = "maxRetries") then setMaxRetries (maxRetries src) dst
  else if decide (key = "refDate") then setRefDate (refDate src) dst
  else if decide (key = "listStyle") then setListStyle (listStyle src) dst
  else setOthers (<[key := default JUndefined (others src !! key)]> (others dst)) dst.

Definition present {A} (key : string) (field : option A) : list string :=
  match field with Some _ => [key] | None => [] end.

(** The keys [for (var key in a)] visits and [a.hasOwnProperty(key)]
    keeps: the own properties of [a]. *)
Definition ownKeys (a : t) : list string :=
  present "promptType" (promptType a) ++ present "prompt" (prompt a)
  ++ present "enumValues" (enumValues a) ++ present "retryPrompt" (retryPrompt a)
  ++ present "maxRetries" (maxRetries a) ++ present "refDate" (refDate a)
  ++ present "listStyle" (listStyle a) ++ (map_to_list (others a)).*1.
End IPromptArgs.

(** An entity of the entity recognizer; [entity] is the matched span. *)
Module IEntity.
Record t := { type : string; entity : string }.
End IEntity.

(** A match among the candidate labels: [{ index, entity, score }]. *)
Module IFindMatchResult.
Record t := { index : number; entity : option string; score : number }.
End IFindMatchResult.

(** The [response] of a recognition, one shape per prompt kind. *)
Inductive response :=
| TextResponse (s : string)
| NumberResponse (n : number)
| BooleanResponse (b : bool)
| TimeResponse (e : IEntity.t)
| ChoiceResponse (m : IFindMatchResult.t).

Module IPromptRecognizerResult.
Record t := {
  resumed : ResumeReason.t;
  promptType : option PromptType.t;
  response : option response;
  error : option Error;
  handled : option bool
}.

Definition setPromptType v r :=
  {| resumed := resumed r; promptType := v; response := response r;
     error := error r; handled := handled r |}.

(** [!result.handled] *)
Definition notHandled (r : t) : bool := negb (default false (handled r)).
End IPromptRecognizerResult.

(** ** The session and the collaborators *)

(** The part of a session this module touches: the dialog's persisted
    data, the incoming message, and a record of what the dialog did with
    the session: the messages handed to [session.send], the result handed
    to [session.endDialog], and the calls of [session.compareConfidence]. *)
Module Session.
Record t := {
  dialogData : IPromptArgs.t;
  message : IMessage.t;
  sent : list (option IMessage.t);
  ended : option IPromptRecognizerResult.t;
  compared : list (option string * string * number)
}.

Definition setDialogData v s :=
  {| dialogData := v; message := message s; sent := sent s; ended := ended s;
     compared := compared s |}.

(** [session.send(msg)] *)
Definition send (msg : option IMessage.t) s :=
  {| dialogData := dialogData s; message := message s; sent := sent s ++ [msg];
     ended := ended s; compared := compared s |}.

(** [session.endDialog(result)] *)
Definition endDialog (result : IPromptRecognizerResult.t) s :=
  {| dialogData := dialogData s; message := message s; sent := sent s;
     ended := Some result; compared := compared s |}.

Definition noteCompared (call : option string * string * number) s :=
  {| dialogData := dialogData s; message := message s; sent := sent s;
     ended := ended s; compared := compared s ++ [call] |}.

(** The next message of the user arrives: [session.message] is [msg]. *)
Definition receive (msg : IMessage.t) s :=
  {| dialogData := dialogData s; message := msg; sent := sent s; ended := ended s;
     compared := compared s |}.
End Session.

(** A command: it acts on the session and returns normally ([None]) or
    raises; what it did to the session before raising stays done. *)
Definition Cmd : Type := Session.t -> Session.t * option thrown.

(** What this module calls and does not define.
    - [parseNumber], [parseBoolean], [recognizeTime], [findBestMatch]: the
      entity recognizer; each may raise.
    - [numberToString]: [Number.prototype.toString] of the runtime.
    - [randomPrompt]: [Message.randomPrompt], the choice of one variant
      ([None] for the [undefined] an empty array yields).
    - [maxButtons]: [Channel.maxButtons(session)], the capacity of the channel
      the session's message came through.
    - [vsprintf]: the formatting [Message.setText(session, format, ...args)]
      applies when arguments follow the format ([vsprintf] of the package
      sprintf-js): the format is read for placeholders, and a format it
      cannot read makes it raise.
    - [claimed]: the verdict [session.compareConfidence] passes to its
      callback; the session calls the callback once, before returning. *)
Record Collaborators := {
  parseNumber : string -> completion number;
  parseBoolean : string -> completion (option bool);
  recognizeTime : string -> option Z -> completion (option IEntity.t);
  findBestMatch : option (list string) -> string -> completion (option IFindMatchResult.t);
  numberToString : number -> string;
  randomPrompt : list string -> option string;
  maxButtons : IMessage.t -> Z;
  vsprintf : string -> list string -> completion string;
  claimed : option string -> string -> number -> bool
}.

Module IPromptRecognizerArgs.
Record t := {
  promptType : option PromptType.t;
  language : option string;
  utterance : string;
  enumValues : option (list string);
  refDate : option Z;
  compareConfidence : option string -> string -> number -> (bool -> Cmd) -> Cmd
}.
End IPromptRecognizerArgs.

(** ** The recognizer *)

Module SimplePromptRecognizer.
Section recognizer.
Variable env : Collaborators.

Import IPromptRecognizerArgs.

(** [/^(cancel|nevermind|never mind|back|stop|forget it)/i] *)
Definition cancelExp : list string :=
  ["cancel"; "nevermind"; "never mind"; "back"; "stop"; "forget it"].

(** [this.cancelExp.test(s)] *)
Definition cancelExpTest (s : string) : bool :=
  existsb (fun alternative => Str.matchesAtStart alternative s) cancelExp.

(** The [switch] of [recognize]: the score and the response for the
    trimmed utterance [text]. The score starts at [0.0] and the response
    at [undefined]. *)
Definition recognizeValue (args : t) (text : string) : completion (number * option response) :=
  match promptType args with
  | Some PromptType.text =>
      Normal (Num (1 # 10), Some (TextResponse text))
  | Some PromptType.number =>
      n ← parseNumber env text;
      if negb (isNaN n)
      then Normal (divLengths (String.length (numberToString env n)) (String.length text),
                   Some (NumberResponse n))
      else Normal (Num 0, None)
  | Some PromptType.confirm =>
      b ← parseBoolean env text;
      match b with
      | Some b => Normal (Num 1, Some (BooleanResponse b))
      | None => Normal (Num 0, None)
      end
  | Some PromptType.time =>
      entity ← recognizeTime env text
                 (match refDate args with Some 0%Z | None => None | Some d => Some d end);
      match entity with
      | Some entity =>
          Normal (divLengths (String.length (IEntity.entity entity)) (String.length text),
                  Some (TimeResponse entity))
      | None => Normal (Num 0, None)
      end
  | Some PromptType.choice =>
      best ← findBestMatch env (enumValues args) text;
      best ← match best with
             | Some _ => Normal best
             | None =>
                 n ← parseNumber env text;
                 if negb (isNaN n) && gtZero n
                 then match enumValues args with
                      | None => Throw (typeError "length")
                      | Some values =>
                          if leLength n (length values)
                          then Normal (Some {| IFindMatchResult.index := n;
                                               IFindMatchResult.entity := elementBefore values n;
                                               IFindMatchResult.score := Num 1 |})
                          else Normal None
                      end
                 else Normal None
             end;
      match best with
      | Some best => Normal (IFindMatchResult.score best, Some (ChoiceResponse best))
      | None => Normal (Num 0, None)
      end
  | None => Normal (Num 0, None)
  end.

Definition canceledResult (args : t) : IPromptRecognizerResult.t :=
  {| IPromptRecognizerResult.resumed := ResumeReason.canceled;
     IPromptRecognizerResult.promptType := promptType args;
     IPromptRecognizerResult.response := None;
     IPromptRecognizerResult.error := None;
     IPromptRecognizerResult.handled := None |}.

Definition completedResult (args : t) (response : option response) : IPromptRecognizerResult.t :=
  {| IPromptRecognizerResult.resumed := ResumeReason.completed;
     IPromptRecognizerResult.promptType := promptType args;
     IPromptRecognizerResult.response := response;
     IPromptRecognizerResult.error := None;
     IPromptRecognizerResult.handled := None |}.

Definition notCompletedResult (args : t) (handled : bool) : IPromptRecognizerResult.t :=
  {| IPromptRecognizerResult.resumed := ResumeReason.notCompleted;
     IPromptRecognizerResult.promptType := promptType args;
     IPromptRecognizerResult.response := None;
     IPromptRecognizerResult.error := None;
     IPromptRecognizerResult.handled := Some handled |}.

Definition errorResult (args : t) (err : thrown) : IPromptRecognizerResult.t :=
  {| IPromptRecognizerResult.resumed := ResumeReason.notCompleted;
     IPromptRecognizerResult.promptType := promptType args;
     IPromptRecognizerResult.response := None;
     IPromptRecognizerResult.error := Some (asError err);
     IPromptRecognizerResult.handled := None |}.

Definition checkCanceled (args : t) (onContinue : Cmd)
    (callback : IPromptRecognizerResult.t -> Cmd) : Cmd :=
  if negb (cancelExpTest (Str.trim (utterance args)))
  then onContinue
  else callback (canceledResult args).

(** The body of the [try] runs to the end of [compareConfidence]; the
    [catch] receives what the switch, the arbitration or the callback
    called from it raised. *)
Definition recognize (args : t) (callback : IPromptRecognizerResult.t -> Cmd) : Cmd :=
  checkCanceled args
    (fun session =>
       let text := Str.trim (utterance args) in
       match recognizeValue args text with
       | Normal (score, response) =>
           let '(session, raised) :=
             compareConfidence args (language args) text score
               (fun handled =>
                  if negb handled && gtZero score
                  then callback (completedResult args response)
                  else callback (notCompletedResult args handled))
               session in
           match raised with
           | None => (session, None)
           | Some err => callback (errorResult args err) session
           end
       | Throw err => callback (errorResult args err) session
       end)
    callback.

End recognizer.
End SimplePromptRecognizer.

(** ** The dialog *)

Module Prompts.

Record IPromptsOptions := { defaultRetryPrompt : string }.

(** [Prompts.options] as the class initialises it; the recognizer is
    [SimplePromptRecognizer]. *)
Definition defaultOptions : IPromptsOptions :=
  {| defaultRetryPrompt := "I didn't understand." |}.

(** The value of the variable [prompt] of [formatPrompt] once an array
    has been replaced by one of its elements. *)
Inductive chosen :=
| ChosenText (s : string)
| ChosenMessage (m : IMessage.t)
| ChosenUndefined.

(** The state of one [forEach] of [formatPrompt]: the variables [list]
    and [connector]. *)
Definition inlineStep (count : nat) (state : string * string) (item : nat * string)
    : string * string :=
  let '(list, connector) := state in
  let '(index, value) := item in
  (list +:+ connector +:+ Str.ofNat (index + 1) +:+ ". " +:+ value,
   if (Z.of_nat index =? Z.of_nat count - 2)%Z
   then (if (index =? 0)%nat then " or " else ", or ")
   else ", ").

Definition listStep (state : string * string) (item : nat * string) : string * string :=
  let '(list, connector) := state in
  let '(index, value) := item in
  (list +:+ connector +:+ Str.ofNat (index + 1) +:+ ". " +:+ value, String "010" "   ").

(** [values.forEach((value, index) => ...)] visits the pairs of an index
    and its element, in order. *)
Definition indexed (values : list string) : list (nat * string) :=
  combine (seq 0 (length values)) values.

Definition inlineList (values : list string) : string :=
  fst (fold_left (inlineStep (length values)) (indexed values) (" ", "")).

Definition numberedList (values : list string) : string :=
  fst (fold_left listStep (indexed values) (String "010" "   ", "")).

(** The class [Message] of [Message.ts], which is not part of this module.
    A new message has no text and no attachment; [setText(session, text)],
    without further arguments, makes [text] the text of the message as it
    is; [setText(session, format, argument)] makes the text what [vsprintf]
    returns for the format and the argument; [addAttachment] adds one
    attachment. *)
Definition textMessage (text : string) (attachments : list IAttachment) : IMessage.t :=
  {| IMessage.text := text; IMessage.language := None; IMessage.attachments := attachments |}.

(** The truth value of [args.retryPrompt] and of a prompt in general:
    [undefined] and the empty string are false, an array and a message are
    true. *)
Definition truthy (content : option PromptContent) : bool :=
  match content with
  | None | Some (Literal "") => false
  | Some _ => true
  end.

(** [x || d] for the counter: [undefined] and [0] give [d]. *)
Definition orElse (x : option Z) (d : Z) : Z :=
  match x with
  | None | Some 0%Z => d
  | Some z => z
  end.

(** [args.maxRetries == 0] *)
Definition isZero (x : option Z) : bool :=
  match x with
  | Some 0%Z => true
  | _ => false
  end.

(** [args.maxRetries--] *)
Definition decrement (x : option Z) : option Z := (fun z => (z - 1)%Z) <$> x.

(** [a.length] for an optional array [a] *)
Definition defined {A} (property : string) (a : option A) : completion A :=
  match a with
  | Some a => Normal a
  | None => Throw (typeError property)
  end.

Section dialog.
Variable env : Collaborators.
Variable options : IPromptsOptions.

(** [if (Array.isArray(prompt)) prompt = mb.Message.randomPrompt(prompt)] *)
Definition choose (content : option PromptContent) : chosen :=
  match content with
  | Some (Literal s) => ChosenText s
  | Some (Variants prompts) =>
      match randomPrompt env prompts with
      | Some s => ChosenText s
      | None => ChosenUndefined
      end
  | Some (Composed m) => ChosenMessage m
  | None => ChosenUndefined
  end.

(** The first half of [formatPrompt]: the base prompt to send. *)
Definition basePrompt (args : IPromptArgs.t) (retry : bool) : chosen :=
  let prompt := choose (IPromptArgs.prompt args) in
  if retry then
    if truthy (IPromptArgs.retryPrompt args) then choose (IPromptArgs.retryPrompt args)
    else match prompt with
         | ChosenText s => ChosenText (defaultRetryPrompt options +:+ " " +:+ s)
         | _ => prompt
         end
  else prompt.

(** The second half adds the prompt's options to the base prompt. *)
Definition formatPrompt (session : Session.t) (args : IPromptArgs.t) (retry : bool)
    : completion (option IMessage.t) :=
  match basePrompt args retry with
  | ChosenText prompt =>
      if decide (IPromptArgs.promptType args = Some PromptType.choice) then
        style ← (if decide (IPromptArgs.listStyle args = Some ListStyle.auto) then
                   let maxBtns := maxButtons env (Session.message session) in
                   values ← defined "length" (IPromptArgs.enumValues args);
                   if (0 <? maxBtns)%Z && (Z.of_nat (length values) <=? maxBtns)%Z
                   then Normal (Some ListStyle.button)
                   else if (length values <? 4)%nat
                        then Normal (Some ListStyle.inline)
                        else Normal (Some ListStyle.list)
                 else Normal (IPromptArgs.listStyle args));
        match style with
        | Some ListStyle.button =>
            values ← defined "length" (IPromptArgs.enumValues (Session.dialogData session));
            Normal (Some (textMessage prompt
              [ {| actions := map (fun action => {| title := action; message := action |}) values |} ]))
        | Some ListStyle.inline =>
            values ← defined "forEach" (IPromptArgs.enumValues args);
            text ← vsprintf env (prompt +:+ "%s") [inlineList values];
            Normal (Some (textMessage text []))
        | Some ListStyle.list =>
            values ← defined "forEach" (IPromptArgs.enumValues args);
            text ← vsprintf env (prompt +:+ "%s") [numberedList values];
            Normal (Some (textMessage text []))
        | _ => Normal (Some (textMessage prompt []))
        end
      else Normal (Some (textMessage prompt []))
  | ChosenMessage m => Normal (Some m)
  | ChosenUndefined => Normal None
  end.

(** [session.send(this.formatPrompt(session, args, retry))] *)
Definition sendPrompt (args : IPromptArgs.t) (retry : bool) : Cmd := fun session =>
  match formatPrompt session args retry with
  | Normal msg => (Session.send msg session, None)
  | Throw err => (session, Some err)
  end.

Definition begin (args : option IPromptArgs.t) : Cmd := fun session =>
  let args := default IPromptArgs.empty args in
  let args := IPromptArgs.setMaxRetries (Some (orElse (IPromptArgs.maxRetries args) 1)) args in
  let session :=
    fold_left
      (fun session key =>
         Session.setDialogData (IPromptArgs.copy key args (Session.dialogData session)) session)
      (IPromptArgs.ownKeys args) session in
  sendPrompt args false session.

(** The callback [replyReceived] gives to the recognizer. [args] is
    [session.dialogData] itself, so the decrement is a write to the
    persisted data. *)
Definition onRecognized (result : IPromptRecognizerResult.t) : Cmd := fun session =>
  let args := Session.dialogData session in
  if IPromptRecognizerResult.notHandled result then
    if bool_decide (is_Some (IPromptRecognizerResult.error result))
       || bool_decide (IPromptRecognizerResult.resumed result = ResumeReason.completed)
       || bool_decide (IPromptRecognizerResult.resumed result = ResumeReason.canceled)
       || isZero (IPromptArgs.maxRetries args)
    then
      (Session.endDialog
         (IPromptRecognizerResult.setPromptType (IPromptArgs.promptType args) result) session,
       None)
    else
      let args := IPromptArgs.setMaxRetries (decrement (IPromptArgs.maxRetries args)) args in
      let session := Session.setDialogData args session in
      sendPrompt args true session
  else (session, None).

(** [session.compareConfidence(language, utterance, score, callback)] *)
Definition sessionCompareConfidence (language : option string) (utterance : string)
    (score : number) (callback : bool -> Cmd) : Cmd := fun session =>
  callback (claimed env language utterance score)
    (Session.noteCompared (language, utterance, score) session).

Definition recognizerArgs (session : Session.t) : IPromptRecognizerArgs.t :=
  let args := Session.dialogData session in
  {| IPromptRecognizerArgs.promptType := IPromptArgs.promptType args;
     IPromptRecognizerArgs.utterance := IMessage.text (Session.message session);
     IPromptRecognizerArgs.language := IMessage.language (Session.message session);
     IPromptRecognizerArgs.enumValues := IPromptArgs.enumValues args;
     IPromptRecognizerArgs.refDate := IPromptArgs.refDate args;
     IPromptRecognizerArgs.compareConfidence := sessionCompareConfidence |}.

Definition replyReceived : Cmd := fun session =>
  SimplePromptRecognizer.recognize env (recognizerArgs session) onRecognized session.

End dialog.
End Prompts.


(** ** Collaborators for the examples

    A small entity recognizer, a printer of numbers and a conversation
    whose arbitration, channel capacity and parser are chosen per example. *)

Module Demo.

Definition digit (c : ascii) : option Z :=
  let n := N_of_ascii c in
  if ((48 <=? n)%N && (n <=? 57)%N)%bool then Some (Z.of_N n - 48)%Z else None.

Fixpoint readFraction (s : string) (num : Z) (den : positive) : option Q :=
  match s with
  | EmptyString => Some (num # den)
  | String c s' =>
      match digit c with
      | Some d => readFraction s' (10 * num + d)%Z (10 * den)%positive
      | None => None
      end
  end.

Fixpoint readInteger (s : string) (acc : Z) : option Q :=
  match s with
  | EmptyString => Some (inject_Z acc)
  | String c s' =>
      if decide (c = "."%char) then readFraction s' acc 1%positive
      else match digit c with
           | Some d => readInteger s' (10 * acc + d)%Z
           | None => None
           end
  end.

(** A decimal numeral that covers the whole text (digits, then possibly a
    point and digits) is read as the number it writes; any other text is
    not a number. *)
Definition parseDecimal (s : string) : number :=
  match s with
  | EmptyString => NaN
  | String c _ =>
      if decide (c = "."%char) then NaN
      else match readInteger s 0 with
           | Some q => Num q
           | None => NaN
           end
  end.

Fixpoint fractionDigits (fuel : nat) (rem : Z) (den : Z) : string :=
  match fuel with
  | O => EmptyString
  | S fuel =>
      if (rem =? 0)%Z then EmptyString
      else Str.ofNat (Z.to_nat (10 * rem / den))
           +:+ fractionDigits fuel (10 * rem mod den)%Z den
  end.

(** The decimal rendering of a number: for an integer its digits with a
    sign, for a decimal fraction the integer part, a point and the digits
    after it. *)
Definition toString (n : number) : string :=
  match n with
  | NaN => "NaN"
  | Infinity => "Infinity"
  | Num q =>
      let r := Qred q in
      let num := Qnum r in
      let den := Zpos (Qden r) in
      (if (num <? 0)%Z then "-" else "")
      +:+ Str.ofNat (Z.to_nat (Z.abs num / den))
      +:+ (if (den =? 1)%Z then ""
           else "." +:+ fractionDigits 20 (Z.abs num mod den) den)
  end.

(** yes, y and true are [true]; no, n and false are [false]. *)
Definition parseYesNo (s : string) : option bool :=
  let s := Str.toLowerCase s in
  if decide (s = "yes" ∨ s = "y" ∨ s = "true") then Some true
  else if decide (s = "no" ∨ s = "n" ∨ s = "false") then Some false
  else None.

(** The first label that equals the text up to case, with its 0-based
    position and the score 1. *)
Fixpoint firstMatch (values : list string) (s : string) (position : nat)
    : option IFindMatchResult.t :=
  match values with
  | [] => None
  | value :: values =>
      if decide (Str.toLowerCase value = Str.toLowerCase s)
      then Some {| IFindMatchResult.index := Num (inject_Z (Z.of_nat position));
                   IFindMatchResult.entity := Some value;
                   IFindMatchResult.score := Num 1 |}
      else firstMatch values s (S position)
  end.

(** A fragment of the formatting of sprintf-js, enough for the examples:
    the text of the format is copied, [%%] gives one percent sign and [%s]
    the next argument (the text undefined when none is left). The other
    placeholders of sprintf-js are not part of the fragment: a percent sign
    followed by anything else is refused, as sprintf-js refuses a percent
    sign that begins no placeholder. *)
Fixpoint format (template : string) (arguments : list string) : completion string :=
  match template with
  | EmptyString => Normal EmptyString
  | String c rest =>
      if decide (c = "%"%char) then
        match rest with
        | String d rest' =>
            if decide (d = "%"%char) then
              text ← format rest' arguments; Normal (String "%" text)
            else if decide (d = "s"%char) then
              text ← format rest' (tail arguments);
              Normal (default "undefined" (head arguments) +:+ text)
            else Throw (ThrownError {| errorMessage := "[sprintf] unexpected placeholder" |})
        | EmptyString =>
            Throw (ThrownError {| errorMessage := "[sprintf] unexpected placeholder" |})
        end
      else text ← format rest arguments; Normal (String c text)
  end.

(** [claims]: the utterances the conversation takes for itself.
    [buttons]: the channel's capacity. [broken]: the number parser raises
    the given value instead of returning. *)
Definition collaborators (claims : list string) (buttons : Z) (broken : option thrown)
    : Collaborators :=
  {| parseNumber := fun s => match broken with
                             | Some t => Throw t
                             | None => Normal (parseDecimal s)
                             end;
     parseBoolean := fun s => Normal (parseYesNo s);
     recognizeTime := fun _ _ => Normal None;
     findBestMatch := fun values s => Normal (firstMatch (default [] values) s 0);
     numberToString := toString;
     randomPrompt := head;
     maxButtons := fun _ => buttons;
     vsprintf := format;
     claimed := fun _ utterance _ => bool_decide (utterance ∈ claims) |}.

(** A conversation that claims nothing, on a channel without buttons. *)
Definition plain : Collaborators := collaborators [] 0 None.

Definition colours : list string := ["Red"; "Green"; "Blue"].

Definition args (kind : PromptType.t) (prompt : string) : IPromptArgs.t :=
  IPromptArgs.setPrompt (Some (Literal prompt))
    (IPromptArgs.setPromptType (Some kind) IPromptArgs.empty).

Definition choiceArgs (prompt : string) (values : list string) : IPromptArgs.t :=
  IPromptArgs.setListStyle (Some ListStyle.auto)
    (IPromptArgs.setEnumValues (Some values) (args PromptType.choice prompt)).

Definition says (text : string) : IMessage.t :=
  {| IMessage.text := text; IMessage.language := Some "en"; IMessage.attachments := [] |}.

(** A session of a dialog that has not begun. *)
Definition fresh : Session.t :=
  {| Session.dialogData := IPromptArgs.empty;
     Session.message := says "";
     Session.sent := []; Session.ended := None; Session.compared := [] |}.

(** One turn: the reply [text] is delivered to the dialog. *)
Definition turn (env : Collaborators) (text : string) (session : Session.t) : Session.t :=
  fst (Prompts.replyReceived env Prompts.defaultOptions (Session.receive (says text) session)).

Definition started (env : Collaborators) (args : IPromptArgs.t) : Session.t :=
  fst (Prompts.begin env Prompts.defaultOptions (Some args) fresh).

End Demo.

(** * Properties *)

(** ** Vocabulary of the specification *)

(** The text [s] begins with [phrase], the case of letters aside. *)
Definition beginsWith (phrase s : string) : Prop :=
  ∃ start rest, s = start +:+ rest ∧ Str.toLowerCase start = phrase.

(** The fixed cancellation phrases. *)
Definition cancellationPhrases : list string :=
  ["cancel"; "nevermind"; "never mind"; "back"; "stop"; "forget it"].

(** A recognition hands [result] to its callback on the session [before]:
    with any callback that returns normally there, the recognition is that
    one call. *)
Definition hands (recognition : (IPromptRecognizerResult.t -> Cmd) -> Cmd)
    (session before : Session.t) (result : IPromptRecognizerResult.t) : Prop :=
  ∀ callback : IPromptRecognizerResult.t -> Cmd,
    (callback result before).2 = None → recognition callback session = callback result before.

(** The outcome of the turn that starts on [session]: what the recognizer
    hands to a callback that only records it. *)
Definition recognized (env : Collaborators) (session : Session.t)
    (result : IPromptRecognizerResult.t) : Prop :=
  Session.ended
    (SimplePromptRecognizer.recognize env (Prompts.recognizerArgs env session)
       (fun result session => (Session.endDialog result session, None)) session).1
  = Some result.

(** A prompt specification as the data model has it: a choice prompt has
    its candidate labels. *)
Definition configured (args : IPromptArgs.t) : Prop :=
  IPromptArgs.promptType args = Some PromptType.choice → is_Some (IPromptArgs.enumValues args).

(** The text holds a percent sign. *)
Fixpoint holdsPercent (s : string) : bool :=
  match s with
  | EmptyString => false
  | String c s => bool_decide (c = "%"%char) || holdsPercent s
  end.

(** What the formatting does with a format that is a text without percent
    sign followed by [%s], and one argument: the argument takes the place
    of [%s]. *)
Definition printfLaw (env : Collaborators) : Prop :=
  ∀ text argument,
    holdsPercent text = false → vsprintf env (text +:+ "%s") [argument] = Normal (text +:+ argument).

(** A prompt specification that [formatPrompt] renders: a choice prompt
    has its candidate labels, and the text it is rendered from holds no
    percent sign. *)
Definition renderable (env : Collaborators) (options : Prompts.IPromptsOptions)
    (args : IPromptArgs.t) (retry : bool) : Prop :=
  configured args
  ∧ (IPromptArgs.promptType args = Some PromptType.choice →
     ∀ prompt, Prompts.basePrompt env options args retry = Prompts.ChosenText prompt →
       holdsPercent prompt = false).

(** The reply on [session] is not a cancellation, its interpretation
    returns a score that is not above 0, and the arbitration does not claim
    it. *)
Definition unrecognized (env : Collaborators) (session : Session.t) : Prop :=
  let args := Prompts.recognizerArgs env session in
  let text := Str.trim (IMessage.text (Session.message session)) in
  SimplePromptRecognizer.cancelExpTest text = false
  ∧ ∃ score response,
      SimplePromptRecognizer.recognizeValue env args text = Normal (score, response)
      ∧ gtZero score = false
      ∧ claimed env (IMessage.language (Session.message session)) text score = false.

(** The items of a numbered enumeration of [values], the first of them
    numbered [first]. *)
Fixpoint numberedFrom (first : nat) (values : list string) : list string :=
  match values with
  | [] => []
  | value :: values => (Str.ofNat first +:+ ". " +:+ value) :: numberedFrom (S first) values
  end.

(** The 1-based numbered items: 1. Red, 2. Green, ... *)
Definition numbered (values : list string) : list string := numberedFrom 1 values.

(** [items] with [separator] between every two neighbours. *)
Fixpoint joined (separator : string) (items : list string) : string :=
  match items with
  | [] => ""
  | [item] => item
  | item :: items => item +:+ separator +:+ joined separator items
  end.

(** The enumeration on one line: the numbered items joined by commas, the
    last one introduced by " or " when there are exactly two items and by
    ", or " when there are more. *)
Definition inlineEnumeration (values : list string) : string :=
  match numbered values with
  | [] => ""
  | [only] => only
  | [first; second] => first +:+ " or " +:+ second
  | items => joined ", " (removelast items) +:+ ", or " +:+ default "" (last items)
  end.

(** A line break and the indentation of an item of the list style. *)
Definition newLine : string := String "010" "   ".

(** The enumeration with one item per line. *)
Definition lineEnumeration (values : list string) : string :=
  joined newLine (numbered values).

(** One selectable action per label, in the order of the labels. *)
Definition buttonsOf (values : list string) : IAttachment :=
  {| actions := map (fun label => {| title := label; message := label |}) values |}.

(** ** The static entry points of [Prompts]

    [Prompts.text], [number], [confirm], [choice] and [time] build the
    argument bag they hand to [beginPrompt]; the bag is the options object
    itself ([options || {}]) with the kind, the prompt and, for a choice,
    the candidates and the list style written into it. *)

Module Entry.

Definition text (prompt : PromptContent) : IPromptArgs.t :=
  IPromptArgs.setPrompt (Some prompt)
    (IPromptArgs.setPromptType (Some PromptType.text) IPromptArgs.empty).

Definition number (prompt : PromptContent) (options : option IPromptArgs.t) : IPromptArgs.t :=
  let args := default IPromptArgs.empty options in
  let args := IPromptArgs.setPromptType (Some PromptType.number) args in
  IPromptArgs.setPrompt (Some prompt) args.

Definition confirm (prompt : PromptContent) (options : option IPromptArgs.t) : IPromptArgs.t :=
  let args := default IPromptArgs.empty options in
  let args := IPromptArgs.setPromptType (Some PromptType.confirm) args in
  IPromptArgs.setPrompt (Some prompt) args.

(** [expandChoices] is [EntityRecognizer.expandChoices], which turns the
    choices, of whatever form, into the list of labels. *)
Definition choice {Choices : Type} (expandChoices : Choices -> list string)
    (prompt : PromptContent) (choices : Choices) (options : option IPromptArgs.t)
    : IPromptArgs.t :=
  let args := default IPromptArgs.empty options in
  let args := IPromptArgs.setPromptType (Some PromptType.choice) args in
  let args := IPromptArgs.setPrompt (Some prompt) args in
  let args := IPromptArgs.setEnumValues (Some (expandChoices choices)) args in
  IPromptArgs.setListStyle
    (match IPromptArgs.listStyle args with
     | Some style => Some style
     | None => Some ListStyle.auto
     end) args.

Definition time (prompt : string) (options : option IPromptArgs.t) : IPromptArgs.t :=
  let args := default IPromptArgs.empty options in
  let args := IPromptArgs.setPromptType (Some PromptType.time) args in
  IPromptArgs.setPrompt (Some (Literal prompt)) args.

End Entry.

(** ** A conversation

    The messages of the user, each handed to [replyReceived] on arrival,
    for as long as the dialog has not ended. *)

Module Conversation.

(** A message as it arrives. The property [text] is optional in
    [IMessage]: a message that brings, say, an attachment alone has none. *)
Record Incoming := {
  text : option string;
  language : option string;
  attachments : list IAttachment
}.

Definition withText (utterance : string) (reply : Incoming) : IMessage.t :=
  {| IMessage.text := utterance; IMessage.language := language reply;
     IMessage.attachments := attachments reply |}.

(** One turn: the message has arrived and [replyReceived] runs. Without a
    text, [session.message.text] (line 193) is [undefined] and
    [args.utterance.trim()] (line 163) raises; [checkCanceled] evaluates it
    outside the [try] of [recognize], so the exception leaves
    [replyReceived] before the dialog has done anything. *)
Definition turn (env : Collaborators) (options : Prompts.IPromptsOptions)
    (reply : Incoming) : Cmd := fun session =>
  match text reply with
  | Some utterance =>
      Prompts.replyReceived env options (Session.receive (withText utterance reply) session)
  | None => (session, Some (typeError "trim"))
  end.

(** The replies are delivered in order; the conversation with the dialog
    stops when the dialog has ended or a turn has raised. *)
Fixpoint deliver (env : Collaborators) (options : Prompts.IPromptsOptions)
    (replies : list Incoming) : Cmd := fun session =>
  match replies with
  | [] => (session, None)
  | reply :: replies =>
      match Session.ended session with
      | Some _ => (session, None)
      | None =>
          match turn env options reply session with
          | (session', None) => deliver env options replies session'
          | (session', Some err) => (session', Some err)
          end
      end
  end.

(** Every reply of [replies] has a text and is neither a cancellation, nor
    recognized, nor claimed. *)
Fixpoint unrecognizedAll (env : Collaborators) (options : Prompts.IPromptsOptions)
    (replies : list Incoming) (session : Session.t) : Prop :=
  match replies with
  | [] => True
  | reply :: replies =>
      (∃ utterance,
         text reply = Some utterance
         ∧ unrecognized env (Session.receive (withText utterance reply) session))
      ∧ unrecognizedAll env options replies (turn env options reply session).1
  end.

End Conversation.

(** The recognizer's arguments with another utterance. *)
Definition withUtterance (utterance : string) (args : IPromptRecognizerArgs.t)
    : IPromptRecognizerArgs.t :=
  {| IPromptRecognizerArgs.promptType := IPromptRecognizerArgs.promptType args;
     IPromptRecognizerArgs.language := IPromptRecognizerArgs.language args;
     IPromptRecognizerArgs.utterance := utterance;
     IPromptRecognizerArgs.enumValues := IPromptRecognizerArgs.enumValues args;
     IPromptRecognizerArgs.refDate := IPromptRecognizerArgs.refDate args;
     IPromptRecognizerArgs.compareConfidence := IPromptRecognizerArgs.compareConfidence args |}.

(** The items joined by commas, with ", or " before the last when there
    are several. *)
Definition commaJoined (items : list string) : string :=
  match items with
  | [only] => only
  | items => joined ", " (removelast items) +:+ ", or " +:+ default "" (last items)
  end.

(** ** Strings *)

Lemma canonicalize_toLowerChar (c : ascii) :
  Str.canonicalize (Str.toLowerChar c) = Str.canonicalize c.
Proof. destruct c as [[] [] [] [] [] [] [] []]; reflexivity. Qed.

Lemma toLowerChar_canonicalize (c : ascii) :
  Str.toLowerChar (Str.canonicalize c) = Str.toLowerChar c.
Proof. destruct c as [[] [] [] [] [] [] [] []]; reflexivity. Qed.

Lemma canonicalize_eq_iff (a c : ascii) :
  Str.canonicalize a = Str.canonicalize c ↔ Str.toLowerChar a = Str.toLowerChar c.
Proof.
  split; intros H.
  - rewrite <- (toLowerChar_canonicalize a), H. apply toLowerChar_canonicalize.
  - rewrite <- (canonicalize_toLowerChar a), H. apply canonicalize_toLowerChar.
Qed.

Lemma matchesAtStart_beginsWith (phrase s : string) :
  Str.toLowerCase phrase = phrase →
  Str.matchesAtStart phrase s = true ↔ beginsWith phrase s.
Proof.
  revert s. induction phrase as [|a phrase IH]; intros s Hlow.
  - split; [intros _ | reflexivity]. by exists EmptyString, s.
  - simpl in Hlow. injection Hlow as Ha Hphrase.
    destruct s as [|c s]; simpl.
    + split; [discriminate|]. intros ([|? ?] & rest & Hs & Hst); discriminate.
    + case_decide as Hc.
      * rewrite IH by done. apply canonicalize_eq_iff in Hc. rewrite Ha in Hc.
        split.
        -- intros (start & rest & -> & <-). exists (String c start), rest.
           simpl. by rewrite <- Hc.
        -- intros ([|c' start] & rest & Hs & Hst); [discriminate|].
           simpl in Hs, Hst. injection Hs as -> ->. injection Hst as _ Hst.
           by exists start, rest.
      * split; [discriminate|].
        intros ([|c' start] & rest & Hs & Hst); [discriminate|].
        simpl in Hs, Hst. injection Hs as -> ->. injection Hst as Hc' _.
        exfalso. apply Hc, canonicalize_eq_iff. by rewrite Ha.
Qed.

Lemma cancelExpTest_beginsWith (s : string) :
  SimplePromptRecognizer.cancelExpTest s = true
  ↔ ∃ phrase, phrase ∈ cancellationPhrases ∧ beginsWith phrase s.
Proof.
  unfold SimplePromptRecognizer.cancelExpTest. rewrite existsb_exists. split.
  - intros (phrase & Hin & Hm). exists phrase. split; [by apply list_elem_of_In|].
    apply matchesAtStart_beginsWith; [|done].
    simpl in Hin. intuition (subst; reflexivity).
  - intros (phrase & Hin & Hb). exists phrase. apply list_elem_of_In in Hin.
    split; [done|]. apply matchesAtStart_beginsWith; [|done].
    simpl in Hin. intuition (subst; reflexivity).
Qed.

Lemma append_assoc (a b c : string) : (a +:+ b) +:+ c = a +:+ b +:+ c.
Proof.
  induction a as [|x a IH]; [reflexivity|].
  change (String x ((a +:+ b) +:+ c) = String x (a +:+ b +:+ c)). by rewrite IH.
Qed.

Lemma append_empty (a : string) : a +:+ "" = a.
Proof.
  induction a as [|x a IH]; [reflexivity|].
  change (String x (a +:+ "") = String x a). by rewrite IH.
Qed.

(** The formatting of the examples obeys the law of [%s]. *)
Lemma format_appends (text argument : string) :
  holdsPercent text = false →
  Demo.format (text +:+ "%s") [argument] = Normal (text +:+ argument).
Proof.
  induction text as [|c text IH]; intros Hfree.
  - change (Normal (argument +:+ "") = Normal argument). by rewrite append_empty.
  - simpl in Hfree. apply orb_false_iff in Hfree as [Hc Hfree].
    apply bool_decide_eq_false in Hc.
    change (String c text +:+ "%s") with (String c (text +:+ "%s")).
    change (String c text +:+ argument) with (String c (text +:+ argument)).
    cbn [Demo.format]. rewrite decide_False by done. by rewrite IH.
Qed.

Lemma printfLaw_examples (claims : list string) (buttons : Z) (broken : option thrown) :
  printfLaw (Demo.collaborators claims buttons broken).
Proof. intros text argument Hfree. by apply format_appends. Qed.

(** ** The recognizer and the turn *)

Section turn.
Variable env : Collaborators.
Variable options : Prompts.IPromptsOptions.

Lemma onRecognized_compared result session :
  Session.compared (Prompts.onRecognized env options result session).1
  = Session.compared session.
Proof.
  unfold Prompts.onRecognized, Prompts.sendPrompt.
  repeat (case_match; simpl; try done).
Qed.

Lemma onRecognized_error result session :
  is_Some (IPromptRecognizerResult.error result) →
  IPromptRecognizerResult.handled result = None →
  Prompts.onRecognized env options result session
  = (Session.endDialog
       (IPromptRecognizerResult.setPromptType
          (IPromptArgs.promptType (Session.dialogData session)) result) session, None).
Proof.
  intros Herr Hh. unfold Prompts.onRecognized, IPromptRecognizerResult.notHandled.
  rewrite Hh. simpl. by rewrite (bool_decide_eq_true_2 _ Herr).
Qed.

(** A turn, with the callbacks of the source unfolded. *)
Lemma replyReceived_unfold session :
  let args := Prompts.recognizerArgs env session in
  let text := Str.trim (IPromptRecognizerArgs.utterance args) in
  Prompts.replyReceived env options session
  = if SimplePromptRecognizer.cancelExpTest text
    then Prompts.onRecognized env options (SimplePromptRecognizer.canceledResult args) session
    else match SimplePromptRecognizer.recognizeValue env args text with
         | Normal (score, response) =>
             let handled := claimed env (IPromptRecognizerArgs.language args) text score in
             let noted :=
               Session.noteCompared (IPromptRecognizerArgs.language args, text, score) session in
             let result :=
               if negb handled && gtZero score
               then SimplePromptRecognizer.completedResult args response
               else SimplePromptRecognizer.notCompletedResult args handled in
             match Prompts.onRecognized env options result noted with
             | (session', None) => (session', None)
             | (session', Some err) =>
                 Prompts.onRecognized env options
                   (SimplePromptRecognizer.errorResult args err) session'
             end
         | Throw err =>
             Prompts.onRecognized env options
               (SimplePromptRecognizer.errorResult args err) session
         end.
Proof.
  intros args text. unfold Prompts.replyReceived, SimplePromptRecognizer.recognize,
    SimplePromptRecognizer.checkCanceled.
  fold args. fold text. destruct (SimplePromptRecognizer.cancelExpTest text); [done|].
  simpl. destruct (SimplePromptRecognizer.recognizeValue env args text) as [[score response]|err];
    [|done].
  unfold args at 1. simpl. unfold Prompts.sessionCompareConfidence. fold args.
  by destruct (negb _ && gtZero score).
Qed.

(** No turn lets an exception out. *)
Lemma replyReceived_returns session :
  (Prompts.replyReceived env options session).2 = None.
Proof.
  rewrite replyReceived_unfold. simpl.
  assert (Hend : ∀ result s,
    IPromptRecognizerResult.handled result = None →
    (is_Some (IPromptRecognizerResult.error result)
     ∨ IPromptRecognizerResult.resumed result = ResumeReason.canceled) →
    (Prompts.onRecognized env options result s).2 = None).
  { intros result s Hh [Herr|Hc]; [by rewrite onRecognized_error|].
    unfold Prompts.onRecognized, IPromptRecognizerResult.notHandled. rewrite Hh, Hc. simpl.
    by rewrite orb_true_r. }
  case_match; [apply Hend; simpl; auto|].
  case_match; [|apply Hend; simpl; eauto].
  case_match. destruct (Prompts.onRecognized _ _ _ _) as [session' [err|]]; [|done].
  apply Hend; simpl; eauto.
Qed.

End turn.

(** ** Cancellation *)

(** C5. Whatever the kind of the prompt, a reply whose trimmed text begins,
    the case of letters aside, with one of the phrases cancel, nevermind,
    never mind, back, stop, forget it gives the outcome Canceled without a
    value. The recognizer hands this outcome to its callback on the session
    as it stands, and the outcome and the session after the turn are the
    same for all collaborators: neither the interpretation nor the
    arbitration takes part. *)
Theorem cancellation_bypasses_recognition
    (env : Collaborators) (options : Prompts.IPromptsOptions) (session : Session.t)
    (phrase : string) :
  phrase ∈ ["cancel"; "nevermind"; "never mind"; "back"; "stop"; "forget it"] →
  beginsWith phrase (Str.trim (IMessage.text (Session.message session))) →
  let outcome :=
    {| IPromptRecognizerResult.resumed := ResumeReason.canceled;
       IPromptRecognizerResult.promptType := IPromptArgs.promptType (Session.dialogData session);
       IPromptRecognizerResult.response := None;
       IPromptRecognizerResult.error := None;
       IPromptRecognizerResult.handled := None |} in
  (∀ callback,
     SimplePromptRecognizer.recognize env (Prompts.recognizerArgs env session) callback session
     = callback outcome session)
  ∧ Prompts.replyReceived env options session = (Session.endDialog outcome session, None)
  ∧ Session.compared (Prompts.replyReceived env options session).1 = Session.compared session
  ∧ ∀ env', Prompts.replyReceived env' options session = Prompts.replyReceived env options session.
Proof.
  intros Hin Hbegins outcome.
  assert (Hcancel : SimplePromptRecognizer.cancelExpTest
            (Str.trim (IMessage.text (Session.message session))) = true).
  { apply cancelExpTest_beginsWith. by exists phrase. }
  assert (Hreply : ∀ env0, Prompts.replyReceived env0 options session
                           = (Session.endDialog outcome session, None)).
  { intros env0. rewrite replyReceived_unfold. simpl. rewrite Hcancel. reflexivity. }
  repeat split.
  - intros callback. unfold SimplePromptRecognizer.recognize,
      SimplePromptRecognizer.checkCanceled. simpl. by rewrite Hcancel.
  - apply Hreply.
  - by rewrite Hreply.
  - intros env'. by rewrite !Hreply.
Qed.

Lemma cancellation_bypasses_recognition_witness :
  let session :=
    Session.receive (Demo.says "  Never Mind, thanks ")
      (Demo.started Demo.plain (Demo.args PromptType.number "How many?")) in
  "never mind" ∈ ["cancel"; "nevermind"; "never mind"; "back"; "stop"; "forget it"]
  ∧ beginsWith "never mind" (Str.trim (IMessage.text (Session.message session)))
  ∧ Prompts.replyReceived Demo.plain Prompts.defaultOptions session
    = (Session.endDialog
         {| IPromptRecognizerResult.resumed := ResumeReason.canceled;
            IPromptRecognizerResult.promptType := Some PromptType.number;
            IPromptRecognizerResult.response := None;
            IPromptRecognizerResult.error := None;
            IPromptRecognizerResult.handled := None |} session, None).
Proof.
  intros session.
  assert (Hin : "never mind" ∈ ["cancel"; "nevermind"; "never mind"; "back"; "stop"; "forget it"])
    by (apply list_elem_of_In; simpl; tauto).
  assert (Hbegins : beginsWith "never mind" (Str.trim (IMessage.text (Session.message session))))
    by (exists "Never Mind", ", thanks"; split; reflexivity).
  split; [exact Hin|]. split; [exact Hbegins|].
  exact (proj1 (proj2 (cancellation_bypasses_recognition Demo.plain Prompts.defaultOptions
                         session "never mind" Hin Hbegins))).
Defined.

(** ** Exceptions of the interpreter *)

(** C6. When the interpretation of a reply that is not a cancellation
    raises, the recognizer catches what was raised and hands its callback
    the outcome NotCompleted with the error, which is the raised value if it
    is an Error and a new Error of its text otherwise. The turn returns
    normally and ends the dialog with that outcome; the retry counter and
    the rest of the persisted data are as before, and no message is sent. *)
Theorem interpreter_exception_is_contained
    (env : Collaborators) (options : Prompts.IPromptsOptions) (session : Session.t)
    (err : thrown) :
  let args := Prompts.recognizerArgs env session in
  let text := Str.trim (IMessage.text (Session.message session)) in
  SimplePromptRecognizer.cancelExpTest text = false →
  SimplePromptRecognizer.recognizeValue env args text = Throw err →
  let outcome :=
    {| IPromptRecognizerResult.resumed := ResumeReason.notCompleted;
       IPromptRecognizerResult.promptType := IPromptArgs.promptType (Session.dialogData session);
       IPromptRecognizerResult.response := None;
       IPromptRecognizerResult.error :=
         Some match err with
              | ThrownError e => e
              | ThrownValue text => {| errorMessage := text |}
              end;
       IPromptRecognizerResult.handled := None |} in
  let after := (Prompts.replyReceived env options session).1 in
  (∀ callback, SimplePromptRecognizer.recognize env args callback session = callback outcome session)
  ∧ Prompts.replyReceived env options session = (Session.endDialog outcome session, None)
  ∧ Session.ended after = Some outcome
  ∧ Session.dialogData after = Session.dialogData session
  ∧ Session.sent after = Session.sent session.
Proof.
  intros args text Hcancel Hthrow outcome after.
  assert (Hreply : Prompts.replyReceived env options session
                   = (Session.endDialog outcome session, None)).
  { rewrite replyReceived_unfold. simpl. fold text. rewrite Hcancel. fold args.
    rewrite Hthrow. by rewrite onRecognized_error by (simpl; eauto). }
  split.
  - intros callback. unfold SimplePromptRecognizer.recognize,
      SimplePromptRecognizer.checkCanceled. simpl. fold text. rewrite Hcancel. simpl.
    fold args. by rewrite Hthrow.
  - unfold after. by rewrite Hreply.
Qed.

Lemma interpreter_exception_is_contained_witness :
  let env := Demo.collaborators [] 0 (Some (ThrownValue "parser failure")) in
  let session :=
    Session.receive (Demo.says "12") (Demo.started env (Demo.args PromptType.number "How many?")) in
  SimplePromptRecognizer.cancelExpTest "12" = false
  ∧ SimplePromptRecognizer.recognizeValue env (Prompts.recognizerArgs env session) "12"
    = Throw (ThrownValue "parser failure")
  ∧ Prompts.replyReceived env Prompts.defaultOptions session
    = (Session.endDialog
         {| IPromptRecognizerResult.resumed := ResumeReason.notCompleted;
            IPromptRecognizerResult.promptType := Some PromptType.number;
            IPromptRecognizerResult.response := None;
            IPromptRecognizerResult.error := Some {| errorMessage := "parser failure" |};
            IPromptRecognizerResult.handled := None |} session, None).
Proof.
  intros env session.
  split; [reflexivity|]. split; [reflexivity|].
  exact (proj1 (proj2 (interpreter_exception_is_contained env Prompts.defaultOptions session
                         (ThrownValue "parser failure") eq_refl eq_refl))).
Defined.

(** ** Arbitration *)

(** The claim C3 as it stands fails: with a number parser that raises, the
    reply "12" is no cancellation, and the turn ends without a single call
    of [compareConfidence]. *)
Lemma arbitration_skipped_when_interpreter_raises :
  let env := Demo.collaborators [] 0 (Some (ThrownValue "parser failure")) in
  let session :=
    Session.receive (Demo.says "12") (Demo.started env (Demo.args PromptType.number "How many?")) in
  SimplePromptRecognizer.cancelExpTest (Str.trim "12") = false
  ∧ SimplePromptRecognizer.recognizeValue env (Prompts.recognizerArgs env session) (Str.trim "12")
    = Throw (ThrownValue "parser failure")
  ∧ Session.compared session = []
  ∧ Session.compared (Prompts.replyReceived env Prompts.defaultOptions session).1 = [].
Proof. repeat split; reflexivity. Qed.

(** C3, amended. On a reply that is not a cancellation and whose
    interpretation returns a score, [compareConfidence] is called exactly
    once in the turn, with the language of the message, the trimmed
    utterance and that score, whatever the score is, 0 included. When the
    interpretation raises, the arbitration is not called at all. *)
Theorem arbitration_called_once
    (env : Collaborators) (options : Prompts.IPromptsOptions) (session : Session.t) :
  let args := Prompts.recognizerArgs env session in
  let text := Str.trim (IMessage.text (Session.message session)) in
  let after := (Prompts.replyReceived env options session).1 in
  SimplePromptRecognizer.cancelExpTest text = false →
  match SimplePromptRecognizer.recognizeValue env args text with
  | Normal (score, _) =>
      Session.compared after
      = Session.compared session ++ [(IMessage.language (Session.message session), text, score)]
  | Throw _ => Session.compared after = Session.compared session
  end.
Proof.
  intros args text after Hcancel. unfold after. rewrite replyReceived_unfold. simpl.
  fold text. rewrite Hcancel. fold args.
  destruct (SimplePromptRecognizer.recognizeValue env args text) as [[score response]|err].
  - match goal with
    | |- context [Prompts.onRecognized env options ?r ?s] =>
        pose proof (onRecognized_compared env options r s) as Hfirst;
        destruct (Prompts.onRecognized env options r s) as [session' [err|]]
    end; simpl in Hfirst; cbn [fst]; [|by rewrite Hfirst].
    by rewrite onRecognized_compared, Hfirst.
  - by rewrite onRecognized_compared.
Qed.

Lemma arbitration_called_once_witness :
  let session :=
    Session.receive (Demo.says " seven ")
      (Demo.started Demo.plain (Demo.args PromptType.number "How many?")) in
  SimplePromptRecognizer.cancelExpTest "seven" = false
  ∧ Session.compared (Prompts.replyReceived Demo.plain Prompts.defaultOptions session).1
    = [(Some "en", "seven", Num 0)].
Proof.
  intros session. split; [reflexivity|].
  exact (arbitration_called_once Demo.plain Prompts.defaultOptions session eq_refl).
Defined.

(** C2. On a reply that is not a cancellation and whose interpretation
    returns a score and a response without raising: if the arbitration
    claims the utterance, the outcome is NotCompleted with handled = true,
    and the turn neither ends the dialog nor sends a message nor changes the
    persisted data; if it does not and the score is above 0, the outcome is
    Completed and carries the response, and the dialog ends with it; if it
    does not and the score is not above 0, the outcome is NotCompleted and
    carries no response. *)
Theorem arbitration_decides_outcome
    (env : Collaborators) (options : Prompts.IPromptsOptions) (session : Session.t)
    (score : number) (response : option response) :
  let args := Prompts.recognizerArgs env session in
  let language := IMessage.language (Session.message session) in
  let text := Str.trim (IMessage.text (Session.message session)) in
  let kind := IPromptArgs.promptType (Session.dialogData session) in
  let noted := Session.noteCompared (language, text, score) session in
  let after := (Prompts.replyReceived env options session).1 in
  SimplePromptRecognizer.cancelExpTest text = false →
  SimplePromptRecognizer.recognizeValue env args text = Normal (score, response) →
  (claimed env language text score = true →
     hands (SimplePromptRecognizer.recognize env args) session noted
       {| IPromptRecognizerResult.resumed := ResumeReason.notCompleted;
          IPromptRecognizerResult.promptType := kind;
          IPromptRecognizerResult.response := None;
          IPromptRecognizerResult.error := None;
          IPromptRecognizerResult.handled := Some true |}
     ∧ Session.ended after = Session.ended session
     ∧ Session.sent after = Session.sent session
     ∧ Session.dialogData after = Session.dialogData session)
  ∧ (claimed env language text score = false → gtZero score = true →
     hands (SimplePromptRecognizer.recognize env args) session noted
       {| IPromptRecognizerResult.resumed := ResumeReason.completed;
          IPromptRecognizerResult.promptType := kind;
          IPromptRecognizerResult.response := response;
          IPromptRecognizerResult.error := None;
          IPromptRecognizerResult.handled := None |}
     ∧ Session.ended after
       = Some {| IPromptRecognizerResult.resumed := ResumeReason.completed;
                 IPromptRecognizerResult.promptType := kind;
                 IPromptRecognizerResult.response := response;
                 IPromptRecognizerResult.error := None;
                 IPromptRecognizerResult.handled := None |})
  ∧ (claimed env language text score = false → gtZero score = false →
     hands (SimplePromptRecognizer.recognize env args) session noted
       {| IPromptRecognizerResult.resumed := ResumeReason.notCompleted;
          IPromptRecognizerResult.promptType := kind;
          IPromptRecognizerResult.response := None;
          IPromptRecognizerResult.error := None;
          IPromptRecognizerResult.handled := Some false |}).
Proof.
  intros args language text kind noted after Hcancel Hvalue.
  assert (Hhands : ∀ callback,
    SimplePromptRecognizer.recognize env args callback session
    = let '(session', raised) :=
        callback (if negb (claimed env language text score) && gtZero score
                  then SimplePromptRecognizer.completedResult args response
                  else SimplePromptRecognizer.notCompletedResult args
                         (claimed env language text score)) noted in
      match raised with
      | None => (session', None)
      | Some err => callback (SimplePromptRecognizer.errorResult args err) session'
      end).
  { intros callback. unfold SimplePromptRecognizer.recognize,
      SimplePromptRecognizer.checkCanceled. simpl. fold text. rewrite Hcancel. simpl.
    fold args. rewrite Hvalue. unfold args at 1. simpl.
    unfold Prompts.sessionCompareConfidence. fold args language noted.
    by destruct (negb _ && gtZero score). }
  assert (Hafter : after
    = (let '(session', raised) :=
         Prompts.onRecognized env options
           (if negb (claimed env language text score) && gtZero score
            then SimplePromptRecognizer.completedResult args response
            else SimplePromptRecognizer.notCompletedResult args
                   (claimed env language text score)) noted in
       match raised with
       | None => (session', None)
       | Some err =>
           Prompts.onRecognized env options (SimplePromptRecognizer.errorResult args err) session'
       end).1).
  { unfold after, Prompts.replyReceived. by rewrite Hhands. }
  split; [|split].
  - intros Hclaimed. rewrite Hclaimed in Hhands, Hafter. simpl in Hhands, Hafter. split.
    + intros callback Hreturns. rewrite Hhands.
      fold kind. by destruct (callback _ noted) as [session' [err|]].
    + by rewrite Hafter.
  - intros Hclaimed Hscore. rewrite Hclaimed, Hscore in Hhands, Hafter.
    simpl in Hhands, Hafter. split.
    + intros callback Hreturns. rewrite Hhands.
      fold kind. by destruct (callback _ noted) as [session' [err|]].
    + by rewrite Hafter.
  - intros Hclaimed Hscore. rewrite Hclaimed, Hscore in Hhands. simpl in Hhands.
    intros callback Hreturns. rewrite Hhands.
    fold kind. by destruct (callback _ noted) as [session' [err|]].
Qed.

Lemma arbitration_decides_outcome_witness :
  let env := Demo.collaborators ["42"] 0 None in
  let session :=
    Session.receive (Demo.says "42") (Demo.started env (Demo.args PromptType.number "How many?")) in
  let after := (Prompts.replyReceived env Prompts.defaultOptions session).1 in
  SimplePromptRecognizer.cancelExpTest "42" = false
  ∧ SimplePromptRecognizer.recognizeValue env (Prompts.recognizerArgs env session) "42"
    = Normal (Num (2 # 2), Some (NumberResponse (Num 42)))
  ∧ claimed env (Some "en") "42" (Num (2 # 2)) = true
  ∧ Session.ended after = None
  ∧ Session.sent after = Session.sent session
  ∧ Session.dialogData after = Session.dialogData session.
Proof.
  intros env session after.
  split; [reflexivity|]. split; [reflexivity|]. split; [reflexivity|].
  exact (proj2 (proj1 (arbitration_decides_outcome env Prompts.defaultOptions session
                         (Num (2 # 2)) (Some (NumberResponse (Num 42))) eq_refl eq_refl)
                  eq_refl)).
Defined.

(** ** The persisted data after [begin] *)

Lemma get_copy_other (key key' : string) (src dst : IPromptArgs.t) :
  key ≠ key' → IPromptArgs.get (IPromptArgs.copy key src dst) key' = IPromptArgs.get dst key'.
Proof.
  intros Hne. unfold IPromptArgs.get, IPromptArgs.copy.
  repeat case_decide; subst; simpl; try done.
  by rewrite lookup_insert_ne.
Qed.

Lemma ownKeys_others (key : string) (a : IPromptArgs.t) :
  key ∈ (map_to_list (IPromptArgs.others a)).*1 ↔ is_Some (IPromptArgs.others a !! key).
Proof.
  rewrite list_elem_of_fmap. split.
  - intros ([k v] & -> & Hin). apply elem_of_map_to_list in Hin. by exists v.
  - intros [v Hv]. exists (key, v). split; [done|]. by apply elem_of_map_to_list.
Qed.

Lemma get_copy_same (key : string) (src dst : IPromptArgs.t) :
  key ∈ IPromptArgs.ownKeys src →
  IPromptArgs.get (IPromptArgs.copy key src dst) key = IPromptArgs.get src key.
Proof.
  intros Hin. unfold IPromptArgs.get, IPromptArgs.copy.
  repeat case_decide; subst; simpl; try done.
  rewrite lookup_insert_eq.
  assert (Hsome : is_Some (IPromptArgs.others src !! key)).
  { apply ownKeys_others. unfold IPromptArgs.ownKeys, IPromptArgs.present in Hin.
    repeat (apply elem_of_app in Hin as [Hin|Hin];
            [destruct (_ : option _); [apply list_elem_of_singleton in Hin; congruence
                                       | by apply not_elem_of_nil in Hin]|]).
    done. }
  destruct Hsome as [v ->]. done.
Qed.

Lemma ownKeys_get (key : string) (a : IPromptArgs.t) :
  key ∉ IPromptArgs.ownKeys a → IPromptArgs.get a key = None.
Proof.
  intros Hnot. unfold IPromptArgs.get.
  unfold IPromptArgs.ownKeys, IPromptArgs.present in Hnot.
  rewrite !not_elem_of_app in Hnot.
  destruct Hnot as (H1 & H2 & H3 & H4 & H5 & H6 & H7 & H8).
  repeat case_decide; subst;
    try (match goal with
         | H : _ ∉ match ?f with Some _ => _ | None => _ end |- _ <$> ?f = None =>
             destruct f; [exfalso; apply H; by apply list_elem_of_singleton | done]
         end).
  rewrite ownKeys_others in H8. apply eq_None_not_Some in H8. by rewrite H8.
Qed.

(** The loop of [begin]: [dst[key] = src[key]] for each of [keys]. *)
Lemma copy_loop (src : IPromptArgs.t) (keys : list string) (session : Session.t) :
  keys ⊆ IPromptArgs.ownKeys src →
  let after :=
    fold_left
      (fun session key =>
         Session.setDialogData (IPromptArgs.copy key src (Session.dialogData session)) session)
      keys session in
  (∀ key, key ∈ keys →
     IPromptArgs.get (Session.dialogData after) key = IPromptArgs.get src key)
  ∧ (∀ key, key ∉ keys →
     IPromptArgs.get (Session.dialogData after) key
     = IPromptArgs.get (Session.dialogData session) key)
  ∧ Session.sent after = Session.sent session
  ∧ Session.ended after = Session.ended session
  ∧ Session.compared after = Session.compared session
  ∧ Session.message after = Session.message session.
Proof.
  revert session. induction keys as [|k keys IH]; intros session Hsub; simpl.
  - repeat split; try done. intros key Hin. by apply not_elem_of_nil in Hin.
  - destruct (IH (Session.setDialogData
                    (IPromptArgs.copy k src (Session.dialogData session)) session))
      as (Hin & Hout & Hsent & Hended & Hcompared & Hmessage).
    { intros x Hx. apply Hsub. by right. }
    repeat split; try done.
    + intros key Hkey. destruct (decide (key ∈ keys)) as [Hk|Hk]; [by apply Hin|].
      apply elem_of_cons in Hkey as [->|Hkey]; [|done].
      rewrite Hout by done. simpl. apply get_copy_same, Hsub. by left.
    + intros key Hkey. apply not_elem_of_cons in Hkey as [Hne Hkey].
      rewrite Hout by done. simpl. by apply get_copy_other.
Qed.

Section begin.
Variable env : Collaborators.
Variable options : Prompts.IPromptsOptions.

Lemma sendPrompt_dialogData args retry session :
  let after := (Prompts.sendPrompt env options args retry session).1 in
  Session.dialogData after = Session.dialogData session
  ∧ Session.ended after = Session.ended session
  ∧ Session.compared after = Session.compared session
  ∧ Session.message after = Session.message session.
Proof. unfold Prompts.sendPrompt. by destruct (Prompts.formatPrompt _ _ _ _ _). Qed.

Lemma begin_get (args : option IPromptArgs.t) (session : Session.t) :
  let bag :=
    IPromptArgs.setMaxRetries
      (Some (Prompts.orElse (IPromptArgs.maxRetries (default IPromptArgs.empty args)) 1))
      (default IPromptArgs.empty args) in
  let after := Session.dialogData (Prompts.begin env options args session).1 in
  (∀ key, key ∈ IPromptArgs.ownKeys bag → IPromptArgs.get after key = IPromptArgs.get bag key)
  ∧ (∀ key, key ∉ IPromptArgs.ownKeys bag →
       IPromptArgs.get after key = IPromptArgs.get (Session.dialogData session) key).
Proof.
  intros bag after. unfold after, Prompts.begin. fold bag.
  rewrite (proj1 (sendPrompt_dialogData _ _ _)).
  destruct (copy_loop bag (IPromptArgs.ownKeys bag) session) as (Hin & Hout & _); done.
Qed.

(** The counter with which a dialog starts. *)
Lemma begin_maxRetries (args : option IPromptArgs.t) (session : Session.t) :
  IPromptArgs.maxRetries (Session.dialogData (Prompts.begin env options args session).1)
  = Some (Prompts.orElse (IPromptArgs.maxRetries (default IPromptArgs.empty args)) 1).
Proof.
  destruct (begin_get args session) as [Hin _].
  specialize (Hin "maxRetries"). unfold IPromptArgs.get in Hin. simpl in Hin.
  assert (Hown : "maxRetries" ∈ IPromptArgs.ownKeys
      (IPromptArgs.setMaxRetries
         (Some (Prompts.orElse (IPromptArgs.maxRetries (default IPromptArgs.empty args)) 1))
         (default IPromptArgs.empty args))).
  { unfold IPromptArgs.ownKeys. rewrite !elem_of_app. do 4 right. left.
    by apply list_elem_of_singleton. }
  specialize (Hin Hown).
  destruct (IPromptArgs.maxRetries _); by inversion Hin.
Qed.

End begin.

(** C10. [begin] writes every own property of the argument bag, as it is
    after the default of [maxRetries] has been applied, into the persisted
    data of the dialog, key by key. A key outside the interface is stored
    with its value like any other; no key is refused or checked, and the
    data are stored whether or not the prompt is rendered afterwards. Keys
    the bag does not have keep what the persisted data held; when these were
    empty, the persisted data are, property by property, the bag. *)
Theorem begin_stores_every_own_property
    (env : Collaborators) (options : Prompts.IPromptsOptions)
    (args : option IPromptArgs.t) (session : Session.t) :
  let bag :=
    IPromptArgs.setMaxRetries
      (Some (Prompts.orElse (IPromptArgs.maxRetries (default IPromptArgs.empty args)) 1))
      (default IPromptArgs.empty args) in
  let after := Session.dialogData (Prompts.begin env options args session).1 in
  (∀ key, key ∈ IPromptArgs.ownKeys bag → IPromptArgs.get after key = IPromptArgs.get bag key)
  ∧ (∀ key value,
       key ∉ ["promptType"; "prompt"; "enumValues"; "retryPrompt"; "maxRetries"; "refDate";
              "listStyle"] →
       IPromptArgs.others (default IPromptArgs.empty args) !! key = Some value →
       IPromptArgs.others after !! key = Some value)
  ∧ (∀ key, key ∉ IPromptArgs.ownKeys bag →
       IPromptArgs.get after key = IPromptArgs.get (Session.dialogData session) key)
  ∧ (Session.dialogData session = IPromptArgs.empty →
     ∀ key, IPromptArgs.get after key = IPromptArgs.get bag key).
Proof.
  intros bag after. destruct (begin_get env options args session) as [Hin Hout].
  fold bag after in Hin, Hout. repeat split; try done.
  - intros key value Hkey Hvalue.
    assert (Hown : key ∈ IPromptArgs.ownKeys bag).
    { unfold IPromptArgs.ownKeys. rewrite !elem_of_app. do 7 right.
      apply ownKeys_others. by exists value. }
    specialize (Hin key Hown). unfold IPromptArgs.get in Hin.
    rewrite !not_elem_of_cons in Hkey. destruct Hkey as (?&?&?&?&?&?&?&_).
    repeat (case_decide; [done|]). simpl in Hin. rewrite Hvalue in Hin.
    destruct (IPromptArgs.others after !! key); by inversion Hin.
  - intros Hempty key. destruct (decide (key ∈ IPromptArgs.ownKeys bag)) as [Hk|Hk].
    + by apply Hin.
    + rewrite Hout, Hempty by done. rewrite (ownKeys_get key bag Hk).
      unfold IPromptArgs.get. by repeat case_decide.
Qed.

Lemma begin_stores_every_own_property_witness :
  let bag :=
    IPromptArgs.setOthers (<["colour" := JString "teal"]> ∅)
      (Demo.args PromptType.text "Your name?") in
  let after :=
    Session.dialogData (Prompts.begin Demo.plain Prompts.defaultOptions (Some bag) Demo.fresh).1 in
  ("colour" ∉ ["promptType"; "prompt"; "enumValues"; "retryPrompt"; "maxRetries"; "refDate";
               "listStyle"])
  ∧ IPromptArgs.others bag !! "colour" = Some (JString "teal")
  ∧ IPromptArgs.others after !! "colour" = Some (JString "teal").
Proof.
  intros bag after.
  assert (Hkey : "colour" ∉ ["promptType"; "prompt"; "enumValues"; "retryPrompt"; "maxRetries";
                             "refDate"; "listStyle"]).
  { rewrite !not_elem_of_cons. repeat split; try discriminate. apply not_elem_of_nil. }
  split; [exact Hkey|]. split; [reflexivity|].
  exact (proj1 (proj2 (begin_stores_every_own_property Demo.plain Prompts.defaultOptions
                         (Some bag) Demo.fresh)) "colour" (JString "teal") Hkey eq_refl).
Defined.

(** ** The retry counter *)

Section retries.
Variable env : Collaborators.
Variable options : Prompts.IPromptsOptions.

Lemma formatPrompt_session session session' args retry :
  Session.message session = Session.message session' →
  IPromptArgs.enumValues (Session.dialogData session)
  = IPromptArgs.enumValues (Session.dialogData session') →
  Prompts.formatPrompt env options session args retry
  = Prompts.formatPrompt env options session' args retry.
Proof. intros Hm He. unfold Prompts.formatPrompt. by rewrite Hm, He. Qed.

Lemma renderable_setMaxRetries (counter : option Z) args retry :
  renderable env options args retry →
  renderable env options (IPromptArgs.setMaxRetries counter args) retry.
Proof. intros [Hconf Hplain]. split; [exact Hconf | exact Hplain]. Qed.

(** A prompt that is no choice is rendered whatever it is; a choice is
    rendered when it has its candidates and its text is a format that
    holds nothing but the final [%s]. *)
Lemma formatPrompt_returns session args retry :
  (IPromptArgs.promptType args = Some PromptType.choice → printfLaw env) →
  renderable env options args retry →
  (IPromptArgs.promptType args = Some PromptType.choice →
   IPromptArgs.enumValues (Session.dialogData session) = IPromptArgs.enumValues args) →
  ∃ msg, Prompts.formatPrompt env options session args retry = Normal msg.
Proof.
  intros Hlaw [Hconf Hplain] Hdata. unfold Prompts.formatPrompt.
  destruct (Prompts.basePrompt env options args retry) as [prompt| |] eqn:Hbase; [|by eexists..].
  case_decide as Hk; [|by eexists].
  rewrite (Hdata Hk). destruct (Hconf Hk) as [values ->].
  assert (Hformat : ∀ argument,
            vsprintf env (prompt +:+ "%s") [argument] = Normal (prompt +:+ argument))
    by (intros argument; apply (Hlaw Hk), (Hplain Hk); done).
  simpl. case_decide; simpl.
  - repeat case_match; simpl; rewrite ?Hformat; by eexists.
  - destruct (IPromptArgs.listStyle args) as [[]|]; simpl; rewrite ?Hformat; by eexists.
Qed.

(** What the callback of [replyReceived] does with an outcome. *)
Lemma onRecognized_cases result session n :
  IPromptArgs.maxRetries (Session.dialogData session) = Some n →
  let data := Session.dialogData session in
  let lowered := IPromptArgs.setMaxRetries (Some (n - 1)%Z) data in
  let outcome := Prompts.onRecognized env options result session in
  if IPromptRecognizerResult.notHandled result then
    if bool_decide (is_Some (IPromptRecognizerResult.error result))
       || bool_decide (IPromptRecognizerResult.resumed result = ResumeReason.completed)
       || bool_decide (IPromptRecognizerResult.resumed result = ResumeReason.canceled)
       || bool_decide (n = 0%Z)
    then outcome
         = (Session.endDialog
              (IPromptRecognizerResult.setPromptType (IPromptArgs.promptType data) result)
              session, None)
    else match Prompts.formatPrompt env options (Session.setDialogData lowered session)
                 lowered true with
         | Normal msg => outcome = (Session.send msg (Session.setDialogData lowered session), None)
         | Throw err => outcome = (Session.setDialogData lowered session, Some err)
         end
  else outcome = (session, None).
Proof.
  intros Hn data lowered outcome. unfold outcome, Prompts.onRecognized.
  destruct (IPromptRecognizerResult.notHandled result); [|done].
  rewrite Hn. fold data.
  replace (Prompts.isZero (Some n)) with (bool_decide (n = 0%Z))
    by (destruct n; reflexivity).
  destruct (_ || _ || _ || bool_decide (n = 0%Z)); [done|].
  unfold Prompts.sendPrompt, Prompts.decrement. simpl. fold lowered.
  by destruct (Prompts.formatPrompt _ _ _ _ _).
Qed.

(** A turn is the callback applied to the outcome of the recognition, on
    a session that differs from the one before at most by the record of
    the arbitration. *)
Lemma turn_shape session result :
  recognized env session result →
  ∃ before,
    Session.dialogData before = Session.dialogData session
    ∧ Session.sent before = Session.sent session
    ∧ Session.ended before = Session.ended session
    ∧ Session.message before = Session.message session
    ∧ Prompts.replyReceived env options session
      = match Prompts.onRecognized env options result before with
        | (session', None) => (session', None)
        | (session', Some err) =>
            Prompts.onRecognized env options
              (SimplePromptRecognizer.errorResult (Prompts.recognizerArgs env session) err)
              session'
        end.
Proof.
  unfold recognized, SimplePromptRecognizer.recognize, SimplePromptRecognizer.checkCanceled.
  rewrite replyReceived_unfold. simpl.
  destruct (SimplePromptRecognizer.cancelExpTest _); simpl.
  - intros [= <-]. by exists session.
  - destruct (SimplePromptRecognizer.recognizeValue _ _ _) as [[score response]|err].
    + unfold Prompts.sessionCompareConfidence.
      set (noted := Session.noteCompared _ session).
      destruct (negb _ && gtZero score); simpl; intros [= <-]; by exists noted.
    + simpl. intros [= <-]. exists session. repeat split; try done.
Qed.

(** The turn of a dialog whose counter is [n], by its outcome. When the
    retry prompt cannot be rendered, the exception of the rendering
    reaches the [catch] of the recognizer and the dialog ends with it. *)
Lemma turn_law session n result :
  IPromptArgs.maxRetries (Session.dialogData session) = Some n →
  recognized env session result →
  let data := Session.dialogData session in
  let lowered := IPromptArgs.setMaxRetries (Some (n - 1)%Z) data in
  let after := (Prompts.replyReceived env options session).1 in
  Session.message after = Session.message session
  ∧ if IPromptRecognizerResult.notHandled result then
      if bool_decide (is_Some (IPromptRecognizerResult.error result))
         || bool_decide (IPromptRecognizerResult.resumed result = ResumeReason.completed)
         || bool_decide (IPromptRecognizerResult.resumed result = ResumeReason.canceled)
         || bool_decide (n = 0%Z)
      then Session.ended after
           = Some (IPromptRecognizerResult.setPromptType (IPromptArgs.promptType data) result)
           ∧ Session.sent after = Session.sent session
           ∧ Session.dialogData after = data
      else Session.dialogData after = lowered
           ∧ match Prompts.formatPrompt env options (Session.setDialogData lowered session)
                    lowered true with
             | Normal msg =>
                 Session.ended after = Session.ended session
                 ∧ Session.sent after = Session.sent session ++ [msg]
             | Throw err =>
                 Session.ended after
                 = Some {| IPromptRecognizerResult.resumed := ResumeReason.notCompleted;
                           IPromptRecognizerResult.promptType := IPromptArgs.promptType data;
                           IPromptRecognizerResult.response := None;
                           IPromptRecognizerResult.error := Some (asError err);
                           IPromptRecognizerResult.handled := None |}
                 ∧ Session.sent after = Session.sent session
             end
    else Session.ended after = Session.ended session
         ∧ Session.sent after = Session.sent session
         ∧ Session.dialogData after = data.
Proof.
  intros Hn Hrec data lowered after.
  destruct (turn_shape session result Hrec) as (before & Hd & Hs & He & Hm & Hreply).
  unfold after. rewrite Hreply.
  assert (Hn' : IPromptArgs.maxRetries (Session.dialogData before) = Some n) by (by rewrite Hd).
  pose proof (onRecognized_cases result before n Hn') as Hcases. simpl in Hcases.
  rewrite Hd in Hcases. fold data lowered in Hcases.
  rewrite (formatPrompt_session (Session.setDialogData lowered before)
             (Session.setDialogData lowered session)) in Hcases by done.
  destruct (IPromptRecognizerResult.notHandled result).
  - destruct (_ || _ || _ || bool_decide (n = 0%Z)).
    + rewrite Hcases. simpl. by rewrite Hs, Hm.
    + destruct (Prompts.formatPrompt env options (Session.setDialogData lowered session)
                  lowered true) as [msg|err].
      * rewrite Hcases. simpl. by rewrite Hs, He, Hm.
      * rewrite Hcases. rewrite onRecognized_error by (simpl; eauto). simpl.
        by rewrite Hs, Hm.
  - rewrite Hcases. simpl. by rewrite Hd, Hs, He, Hm.
Qed.

Lemma unrecognized_recognized session :
  unrecognized env session →
  recognized env session
    {| IPromptRecognizerResult.resumed := ResumeReason.notCompleted;
       IPromptRecognizerResult.promptType := IPromptArgs.promptType (Session.dialogData session);
       IPromptRecognizerResult.response := None;
       IPromptRecognizerResult.error := None;
       IPromptRecognizerResult.handled := Some false |}.
Proof.
  intros (Hcancel & score & response & Hvalue & Hscore & Hclaimed).
  unfold recognized, SimplePromptRecognizer.recognize, SimplePromptRecognizer.checkCanceled.
  simpl. rewrite Hcancel. simpl. rewrite Hvalue. simpl.
  unfold Prompts.sessionCompareConfidence. by rewrite Hclaimed, Hscore.
Qed.

(** The turn on a reply that is neither recognized nor claimed, in a
    dialog with retries left whose retry prompt renders. *)
Lemma turn_retried session n :
  printfLaw env →
  renderable env options (Session.dialogData session) true →
  IPromptArgs.maxRetries (Session.dialogData session) = Some n →
  n ≠ 0%Z →
  unrecognized env session →
  let after := (Prompts.replyReceived env options session).1 in
  Session.message after = Session.message session
  ∧ Session.dialogData after
    = IPromptArgs.setMaxRetries (Some (n - 1)%Z) (Session.dialogData session)
  ∧ Session.ended after = Session.ended session
  ∧ ∃ msg,
      Prompts.formatPrompt env options after (Session.dialogData after) true = Normal msg
      ∧ Session.sent after = Session.sent session ++ [msg].
Proof.
  intros Hlaw Hrender Hn Hz Hun after.
  pose proof (turn_law session n _ Hn (unrecognized_recognized session Hun)) as [Hm Hturn].
  simpl in Hturn. rewrite (bool_decide_eq_false_2 (n = 0%Z)) in Hturn by done.
  fold after in Hm, Hturn. destruct Hturn as [Hdata Hturn].
  set (lowered := IPromptArgs.setMaxRetries (Some (n - 1)%Z) (Session.dialogData session)) in *.
  destruct (formatPrompt_returns (Session.setDialogData lowered session) lowered true)
    as [msg Hmsg]; [done | by apply renderable_setMaxRetries | done |].
  rewrite Hmsg in Hturn. destruct Hturn as [Hended Hsent].
  repeat split; try done. exists msg. split; [|done].
  rewrite <- Hmsg, Hdata. apply formatPrompt_session; [done|]. by rewrite Hdata.
Qed.

End retries.




(** ** The default of [maxRetries] *)

(** C4, on the code. A bag whose [maxRetries] is 0 starts a dialog whose
    counter is 1, not 0: [args.maxRetries || 1] takes the 0 for an absent
    value. The first reply that is neither recognized nor claimed is then
    answered with a retry message and leaves the dialog open, with the
    counter at 0. *)
Theorem explicit_zero_maxRetries_is_replaced :
  let args := IPromptArgs.setMaxRetries (Some 0%Z) (Demo.args PromptType.number "How many?") in
  let start := Demo.started Demo.plain args in
  let after := Demo.turn Demo.plain "hello" start in
  IPromptArgs.maxRetries args = Some 0%Z
  ∧ IPromptArgs.maxRetries (Session.dialogData start) = Some 1%Z
  ∧ unrecognized Demo.plain (Session.receive (Demo.says "hello") start)
  ∧ Session.ended after = None
  ∧ Session.sent after
    = Session.sent start ++ [Some (Prompts.textMessage "I didn't understand. How many?" [])]
  ∧ IPromptArgs.maxRetries (Session.dialogData after) = Some 0%Z.
Proof.
  repeat split; try reflexivity.
  exists (Num 0), None. repeat split; reflexivity.
Qed.

(** An explicit 0 and an absent [maxRetries] start the same dialog, with
    any collaborators. *)
Lemma begin_zero_as_absent (env : Collaborators) (options : Prompts.IPromptsOptions)
    (args : IPromptArgs.t) (session : Session.t) :
  IPromptArgs.maxRetries args = Some 0%Z ∨ IPromptArgs.maxRetries args = None →
  IPromptArgs.maxRetries (Session.dialogData (Prompts.begin env options (Some args) session).1)
  = Some 1%Z.
Proof. intros [H|H]; rewrite begin_maxRetries; simpl; by rewrite H. Qed.

(** ** Scores of the interpretation *)





Lemma elementBefore_integer (values : list string) (k : Z) :
  (1 ≤ k)%Z → elementBefore values (Num (inject_Z k)) = nth_error values (Z.to_nat (k - 1)).
Proof.
  intros Hk. unfold elementBefore.
  assert (Hred : Qred (inject_Z k - 1) = inject_Z (k - 1)).
  { rewrite <- (Qcanon.Qred_identity (inject_Z (k - 1))) by apply Z.gcd_1_r.
    apply Qred_complete. unfold Qeq. simpl. lia. }
  rewrite Hred. simpl.
  by rewrite (proj2 (Z.leb_le 0 (k - 1))) by lia.
Qed.

(** The ordinal fallback of a choice prompt on whole numbers: inside
    [1..count] the choice is the label at that position, with the score 1
    and the index [k]; outside it nothing is recognized. *)
Lemma choice_ordinal_integer
    (env : Collaborators) (args : IPromptRecognizerArgs.t) (text : string) (k : Z)
    (values : list string) :
  IPromptRecognizerArgs.promptType args = Some PromptType.choice →
  IPromptRecognizerArgs.enumValues args = Some values →
  findBestMatch env (Some values) text = Normal None →
  parseNumber env text = Normal (Num (inject_Z k)) →
  SimplePromptRecognizer.recognizeValue env args text
  = if decide (1 ≤ k ≤ Z.of_nat (length values))%Z
    then Normal (Num 1,
                 Some (ChoiceResponse
                         {| IFindMatchResult.index := Num (inject_Z k);
                            IFindMatchResult.entity := nth_error values (Z.to_nat (k - 1));
                            IFindMatchResult.score := Num 1 |}))
    else Normal (Num 0, None).
Proof.
  intros Hkind Hvalues Hbest Hparse. unfold SimplePromptRecognizer.recognizeValue.
  rewrite Hkind, Hvalues, Hbest. simpl. rewrite Hparse. simpl.
  assert (Hgt : negb (Qle_bool (inject_Z k) 0) = bool_decide (1 ≤ k)%Z).
  { apply eq_true_iff_eq.
    rewrite negb_true_iff, <- not_true_iff_false, Qle_bool_iff, bool_decide_eq_true.
    unfold Qle. simpl. lia. }
  assert (Hle : Qle_bool (inject_Z k) (inject_Z (Z.of_nat (length values)))
                = bool_decide (k ≤ Z.of_nat (length values))%Z).
  { apply eq_true_iff_eq. rewrite Qle_bool_iff, bool_decide_eq_true.
    unfold Qle. simpl. lia. }
  rewrite Hgt, Hle. clear Hgt Hle.
  destruct (decide (1 ≤ k ≤ Z.of_nat (length values))%Z) as [Hrange|Hrange].
  - rewrite <- (elementBefore_integer values k) by lia.
    by rewrite (bool_decide_eq_true_2 (1 ≤ k)%Z), (bool_decide_eq_true_2 (k ≤ _)%Z) by lia.
  - destruct (bool_decide (1 ≤ k)%Z) eqn:Hone; [|done].
    apply bool_decide_eq_true in Hone.
    by rewrite (bool_decide_eq_false_2 (k ≤ _)%Z) by lia.
Qed.

(** C8, on the code. With the candidates Red, Green, Blue and the utterance
    0.5, no label matches and the parsed number 0.5 lies outside 1..3, yet
    the guard [n > 0 && n <= length] lets it pass: the score is 1, the index
    is 0.5 and the label is [undefined], and the dialog ends as completed.
    The same happens at 1.5, inside the range but no position. *)
Theorem choice_accepts_fractional_ordinal :
  let start := Demo.started Demo.plain (Demo.choiceArgs "Pick" Demo.colours) in
  let args text := Prompts.recognizerArgs Demo.plain (Session.receive (Demo.says text) start) in
  findBestMatch Demo.plain (Some Demo.colours) "0.5" = Normal None
  ∧ parseNumber Demo.plain "0.5" = Normal (Num (5 # 10))
  ∧ SimplePromptRecognizer.recognizeValue Demo.plain (args "0.5") "0.5"
    = Normal (Num 1,
              Some (ChoiceResponse
                      {| IFindMatchResult.index := Num (5 # 10);
                         IFindMatchResult.entity := None;
                         IFindMatchResult.score := Num 1 |}))
  ∧ IPromptRecognizerResult.resumed <$> Session.ended (Demo.turn Demo.plain "0.5" start)
    = Some ResumeReason.completed
  ∧ SimplePromptRecognizer.recognizeValue Demo.plain (args "1.5") "1.5"
    = Normal (Num 1,
              Some (ChoiceResponse
                      {| IFindMatchResult.index := Num (15 # 10);
                         IFindMatchResult.entity := None;
                         IFindMatchResult.score := Num 1 |}))
  ∧ SimplePromptRecognizer.recognizeValue Demo.plain (args "2") "2"
    = Normal (Num 1,
              Some (ChoiceResponse
                      {| IFindMatchResult.index := Num 2;
                         IFindMatchResult.entity := Some "Green";
                         IFindMatchResult.score := Num 1 |})).
Proof. repeat split; reflexivity. Qed.

(** ** Rendering of a choice prompt *)

(** The loop of the inline style, for fewer than four candidates. *)
Lemma inlineList_short (values : list string) :
  length values < 4 → Prompts.inlineList values = " " +:+ inlineEnumeration values.
Proof.
  destruct values as [|a [|b [|c [|d values]]]]; simpl; intros Hlen; try lia; reflexivity.
Qed.

(** The loop of the list style: every step appends the connector and the
    next item, and the connector is a line break from the second item on. *)
Lemma listStep_loop (values : list string) (index : nat) (list connector : string) :
  (fold_left Prompts.listStep (combine (seq index (length values)) values) (list, connector)).1
  = list +:+ match values with
             | [] => ""
             | _ => connector +:+ joined newLine (numberedFrom (S index) values)
             end.
Proof.
  revert index list connector. induction values as [|value values IH]; intros; simpl.
  - by rewrite append_empty.
  - rewrite IH. rewrite Nat.add_1_r. destruct values as [|value' values].
    + by rewrite append_empty.
    + change (String "010" "   ") with newLine.
      by rewrite !append_assoc.
Qed.

Lemma numberedList_lines (values : list string) :
  values ≠ [] → Prompts.numberedList values = newLine +:+ lineEnumeration values.
Proof.
  intros Hne. unfold Prompts.numberedList, Prompts.indexed. rewrite listStep_loop.
  by destruct values.
Qed.




(** The printer of the examples writes a whole number as its digits,
    without leading zeros: this is the text whose length the score of a
    number prompt counts. *)
Lemma toString_natural (k : nat) :
  Demo.toString (Num (inject_Z (Z.of_nat k))) = Str.ofNat k.
Proof.
  unfold Demo.toString.
  rewrite (Qcanon.Qred_identity (inject_Z (Z.of_nat k))) by apply Z.gcd_1_r.
  cbn [inject_Z Qnum Qden].
  rewrite (proj2 (Z.ltb_ge (Z.of_nat k) 0)) by lia.
  rewrite Z.div_1_r, Z.abs_eq, Nat2Z.id by lia.
  change (Z.pos 1 =? 1)%Z with true. cbv iota.
  change ("" +:+ Str.ofNat k +:+ "" = Str.ofNat k). apply append_empty.
Qed.


(** * Further properties of the recognizer *)

Lemma trimStart_head (s : string) :
  Str.trimStart s = "" ∨ ∃ c t, Str.trimStart s = String c t ∧ Str.isWhiteSpace c = false.
Proof.
  induction s as [|c s IH]; [by left|]. simpl.
  destruct (Str.isWhiteSpace c) eqn:Hc; [done|]. right. by exists c, s.
Qed.

Lemma trimEnd_idempotent (s : string) : Str.trimEnd (Str.trimEnd s) = Str.trimEnd s.
Proof.
  induction s as [|c s IH]; [done|]. simpl.
  destruct (Str.trimEnd s) as [|d t] eqn:Ht.
  - destruct (Str.isWhiteSpace c) eqn:Hc; [done|]. simpl. by rewrite Hc.
  - change (Str.trimEnd (String c (String d t))) with
      (match Str.trimEnd (String d t) with
       | EmptyString => if Str.isWhiteSpace c then EmptyString else String c EmptyString
       | u => String c u
       end).
    by rewrite IH.
Qed.

Lemma trimEnd_head (c : ascii) (s : string) :
  Str.isWhiteSpace c = false → ∃ t, Str.trimEnd (String c s) = String c t.
Proof.
  intros Hc. simpl. destruct (Str.trimEnd s); [|by eexists]. rewrite Hc. by eexists.
Qed.

Lemma trim_idempotent (s : string) : Str.trim (Str.trim s) = Str.trim s.
Proof.
  unfold Str.trim. destruct (trimStart_head s) as [->|(c & t & -> & Hc)]; [done|].
  destruct (trimEnd_head c t Hc) as [u Hu]. rewrite Hu.
  change (Str.trimStart (String c u)) with
    (if Str.isWhiteSpace c then Str.trimStart u else String c u).
  rewrite Hc, <- Hu. apply trimEnd_idempotent.
Qed.

(** The outcome of a turn, by the three ways through [recognize]. *)
Lemma recognized_cases (env : Collaborators) (session : Session.t)
    (result : IPromptRecognizerResult.t) :
  let args := Prompts.recognizerArgs env session in
  let text := Str.trim (IMessage.text (Session.message session)) in
  recognized env session result →
  (SimplePromptRecognizer.cancelExpTest text = true
   ∧ result = SimplePromptRecognizer.canceledResult args)
  ∨ (SimplePromptRecognizer.cancelExpTest text = false
     ∧ ∃ err, SimplePromptRecognizer.recognizeValue env args text = Throw err
              ∧ result = SimplePromptRecognizer.errorResult args err)
  ∨ (SimplePromptRecognizer.cancelExpTest text = false
     ∧ ∃ score response,
         SimplePromptRecognizer.recognizeValue env args text = Normal (score, response)
         ∧ result
           = if negb (claimed env (IMessage.language (Session.message session)) text score)
                && gtZero score
             then SimplePromptRecognizer.completedResult args response
             else SimplePromptRecognizer.notCompletedResult args
                    (claimed env (IMessage.language (Session.message session)) text score)).
Proof.
  intros args text. unfold recognized, SimplePromptRecognizer.recognize,
    SimplePromptRecognizer.checkCanceled. simpl. fold text.
  destruct (SimplePromptRecognizer.cancelExpTest text); simpl.
  - intros [= <-]. by left.
  - fold args. destruct (SimplePromptRecognizer.recognizeValue env args text)
      as [[score response]|err] eqn:Hvalue.
    + unfold args at 1. simpl. unfold Prompts.sessionCompareConfidence. fold args.
      intros Hended. right. right. split; [done|]. exists score, response. split; [done|].
      destruct (negb _ && gtZero score); simpl in Hended; by injection Hended as <-.
    + simpl. intros [= <-]. right. left. split; [done|]. by exists err.
Qed.


(** X1. The outcome of a turn is Canceled exactly when the trimmed reply
    begins, the case of letters aside, with one of the cancellation phrases:
    no other way through the recognizer yields Canceled. *)
Theorem canceled_only_on_phrases
    (env : Collaborators) (session : Session.t) (result : IPromptRecognizerResult.t) :
  recognized env session result →
  IPromptRecognizerResult.resumed result = ResumeReason.canceled
  ↔ ∃ phrase,
      phrase ∈ ["cancel"; "nevermind"; "never mind"; "back"; "stop"; "forget it"]
      ∧ beginsWith phrase (Str.trim (IMessage.text (Session.message session))).
Proof.
  intros Hrec.
  change (IPromptRecognizerResult.resumed result = ResumeReason.canceled
          ↔ ∃ phrase, phrase ∈ cancellationPhrases
                      ∧ beginsWith phrase (Str.trim (IMessage.text (Session.message session)))).
  rewrite <- cancelExpTest_beginsWith.
  destruct (recognized_cases env session result Hrec)
    as [[Hc ->]|[[Hc (err & _ & ->)]|[Hc (score & response & _ & ->)]]].
  - done.
  - rewrite Hc. simpl. split; discriminate.
  - rewrite Hc. destruct (negb _ && gtZero score); simpl; split; discriminate.
Qed.

Lemma canceled_only_on_phrases_witness :
  let session :=
    Session.receive (Demo.says "candle")
      (Demo.started Demo.plain (Demo.args PromptType.text "Your word?")) in
  let result :=
    {| IPromptRecognizerResult.resumed := ResumeReason.completed;
       IPromptRecognizerResult.promptType := Some PromptType.text;
       IPromptRecognizerResult.response := Some (TextResponse "candle");
       IPromptRecognizerResult.error := None;
       IPromptRecognizerResult.handled := None |} in
  recognized Demo.plain session result
  ∧ ¬ ∃ phrase,
        phrase ∈ ["cancel"; "nevermind"; "never mind"; "back"; "stop"; "forget it"]
        ∧ beginsWith phrase "candle".
Proof.
  intros session result.
  assert (Hrec : recognized Demo.plain session result) by reflexivity.
  split; [exact Hrec|].
  intros Hphrase.
  pose proof (proj2 (canceled_only_on_phrases Demo.plain session result Hrec) Hphrase) as H.
  discriminate H.
Defined.

(** X2. The recognizer reads the utterance only through its trimmed form:
    with any callback and on any session, recognizing an utterance and
    recognizing the same utterance already trimmed are the same command. *)
Theorem recognize_ignores_surrounding_space
    (env : Collaborators) (args : IPromptRecognizerArgs.t)
    (callback : IPromptRecognizerResult.t -> Cmd) (session : Session.t) :
  SimplePromptRecognizer.recognize env args callback session
  = SimplePromptRecognizer.recognize env
      (withUtterance (Str.trim (IPromptRecognizerArgs.utterance args)) args) callback session.
Proof.
  unfold SimplePromptRecognizer.recognize, SimplePromptRecognizer.checkCanceled.
  simpl. rewrite trim_idempotent. reflexivity.
Qed.

(** * Further properties of the interpretation, kind by kind *)

Lemma gtZero_divLengths (a b : nat) : gtZero (divLengths a b) = negb (a =? 0)%nat.
Proof. destruct b, a; reflexivity. Qed.

(** An unclaimed reply whose score is above 0 ends the dialog as completed,
    in the same turn. *)
Lemma turn_completed (env : Collaborators) (options : Prompts.IPromptsOptions)
    (session : Session.t) (score : number) (response : option response) :
  let args := Prompts.recognizerArgs env session in
  let language := IMessage.language (Session.message session) in
  let text := Str.trim (IMessage.text (Session.message session)) in
  SimplePromptRecognizer.cancelExpTest text = false →
  SimplePromptRecognizer.recognizeValue env args text = Normal (score, response) →
  claimed env language text score = false →
  gtZero score = true →
  Prompts.replyReceived env options session
  = (Session.endDialog
       {| IPromptRecognizerResult.resumed := ResumeReason.completed;
          IPromptRecognizerResult.promptType :=
            IPromptArgs.promptType (Session.dialogData session);
          IPromptRecognizerResult.response := response;
          IPromptRecognizerResult.error := None;
          IPromptRecognizerResult.handled := None |}
       (Session.noteCompared (language, text, score) session), None).
Proof.
  intros args language text Hcancel Hvalue Hclaimed Hscore.
  rewrite replyReceived_unfold. simpl. fold text. rewrite Hcancel. fold args.
  rewrite Hvalue. fold language. by rewrite Hclaimed, Hscore.
Qed.

(** X3. A text prompt never asks again. Whatever the reply, the turn sends
    no message and leaves the persisted data, the counter included, as they
    were. A reply that is not a cancellation is offered to the arbitration
    with the score 0.1 and, unless claimed, ends the dialog as completed with
    the trimmed text as the response, also when that text is empty. None of
    the parsers is consulted. *)
Theorem text_prompt_never_asks_again
    (env : Collaborators) (options : Prompts.IPromptsOptions) (session : Session.t) :
  IPromptArgs.promptType (Session.dialogData session) = Some PromptType.text →
  let language := IMessage.language (Session.message session) in
  let text := Str.trim (IMessage.text (Session.message session)) in
  let after := (Prompts.replyReceived env options session).1 in
  Session.sent after = Session.sent session
  ∧ Session.dialogData after = Session.dialogData session
  ∧ (SimplePromptRecognizer.cancelExpTest text = false →
     Session.compared after = Session.compared session ++ [(language, text, Num (1 # 10))]
     ∧ (claimed env language text (Num (1 # 10)) = true →
        Session.ended after = Session.ended session)
     ∧ (claimed env language text (Num (1 # 10)) = false →
        Session.ended after
        = Some {| IPromptRecognizerResult.resumed := ResumeReason.completed;
                  IPromptRecognizerResult.promptType := Some PromptType.text;
                  IPromptRecognizerResult.response := Some (TextResponse text);
                  IPromptRecognizerResult.error := None;
                  IPromptRecognizerResult.handled := None |})).
Proof.
  intros Hkind language text after. unfold after. rewrite replyReceived_unfold. simpl.
  fold text. fold language.
  unfold SimplePromptRecognizer.recognizeValue. simpl. rewrite Hkind.
  destruct (SimplePromptRecognizer.cancelExpTest text).
  - repeat split; try done.
  - destruct (claimed env language text (Num (1 # 10))) eqn:Hclaimed; simpl.
    + repeat split; try done.
    + unfold Prompts.onRecognized. simpl. rewrite Hkind. repeat split; try done.
Qed.

Lemma text_prompt_never_asks_again_witness :
  let session :=
    Session.receive (Demo.says "   ")
      (Demo.started Demo.plain (Demo.args PromptType.text "Anything to add?")) in
  let after := (Prompts.replyReceived Demo.plain Prompts.defaultOptions session).1 in
  IPromptArgs.promptType (Session.dialogData session) = Some PromptType.text
  ∧ Session.sent after = Session.sent session
  ∧ Session.ended after
    = Some {| IPromptRecognizerResult.resumed := ResumeReason.completed;
              IPromptRecognizerResult.promptType := Some PromptType.text;
              IPromptRecognizerResult.response := Some (TextResponse "");
              IPromptRecognizerResult.error := None;
              IPromptRecognizerResult.handled := None |}.
Proof.
  intros session after. split; [reflexivity|].
  destruct (text_prompt_never_asks_again Demo.plain Prompts.defaultOptions session eq_refl)
    as (Hsent & _ & Hrest).
  split; [exact Hsent|].
  exact (proj2 (proj2 (Hrest eq_refl)) eq_refl).
Defined.

(** X4. A confirm prompt, on a reply that is not a cancellation and that
    the arbitration does not claim: when the boolean parser returns a truth
    value, the dialog ends in that turn as completed with that value and
    nothing is sent; when it returns none, the reply counts as not
    recognized (score 0, no response). *)
Theorem confirm_prompt_answer
    (env : Collaborators) (options : Prompts.IPromptsOptions) (session : Session.t)
    (answer : option bool) :
  let language := IMessage.language (Session.message session) in
  let text := Str.trim (IMessage.text (Session.message session)) in
  let after := (Prompts.replyReceived env options session).1 in
  IPromptArgs.promptType (Session.dialogData session) = Some PromptType.confirm →
  SimplePromptRecognizer.cancelExpTest text = false →
  parseBoolean env text = Normal answer →
  claimed env language text (match answer with Some _ => Num 1 | None => Num 0 end) = false →
  match answer with
  | Some b =>
      Session.ended after
      = Some {| IPromptRecognizerResult.resumed := ResumeReason.completed;
                IPromptRecognizerResult.promptType := Some PromptType.confirm;
                IPromptRecognizerResult.response := Some (BooleanResponse b);
                IPromptRecognizerResult.error := None;
                IPromptRecognizerResult.handled := None |}
      ∧ Session.sent after = Session.sent session
      ∧ Session.dialogData after = Session.dialogData session
  | None => unrecognized env session
  end.
Proof.
  intros language text after Hkind Hcancel Hparse Hclaimed.
  assert (Hvalue : SimplePromptRecognizer.recognizeValue env
                     (Prompts.recognizerArgs env session) text
                   = Normal (match answer with
                             | Some b => (Num 1, Some (BooleanResponse b))
                             | None => (Num 0, None)
                             end)).
  { unfold SimplePromptRecognizer.recognizeValue. simpl. rewrite Hkind, Hparse.
    by destruct answer. }
  destruct answer as [b|].
  - unfold after. rewrite (turn_completed env options session _ _ Hcancel Hvalue Hclaimed eq_refl).
    simpl. by rewrite Hkind.
  - split; [exact Hcancel|]. exists (Num 0), None. by repeat split.
Qed.

Lemma confirm_prompt_answer_witness :
  let session :=
    Session.receive (Demo.says " Yes ")
      (Demo.started Demo.plain (Demo.args PromptType.confirm "Sure?")) in
  let after := (Prompts.replyReceived Demo.plain Prompts.defaultOptions session).1 in
  IPromptArgs.promptType (Session.dialogData session) = Some PromptType.confirm
  ∧ SimplePromptRecognizer.cancelExpTest "Yes" = false
  ∧ parseBoolean Demo.plain "Yes" = Normal (Some true)
  ∧ claimed Demo.plain (Some "en") "Yes" (Num 1) = false
  ∧ Session.ended after
    = Some {| IPromptRecognizerResult.resumed := ResumeReason.completed;
              IPromptRecognizerResult.promptType := Some PromptType.confirm;
              IPromptRecognizerResult.response := Some (BooleanResponse true);
              IPromptRecognizerResult.error := None;
              IPromptRecognizerResult.handled := None |}.
Proof.
  intros session after. repeat (split; [reflexivity|]).
  exact (proj1 (confirm_prompt_answer Demo.plain Prompts.defaultOptions session (Some true)
                  eq_refl eq_refl eq_refl eq_refl)).
Defined.

(** X5. A time prompt asks the recognizer of times with the reference date
    of the bag, and with none when the bag has none or has 0. When an entity
    comes back on a reply that is neither a cancellation nor claimed, the
    score is the length of the matched span over the length of the trimmed
    reply: the dialog ends as completed with the entity when the span is not
    empty, and the reply counts as not recognized when the span is empty. *)
Theorem time_prompt_entity
    (env : Collaborators) (options : Prompts.IPromptsOptions) (session : Session.t)
    (entity : IEntity.t) :
  let language := IMessage.language (Session.message session) in
  let text := Str.trim (IMessage.text (Session.message session)) in
  let after := (Prompts.replyReceived env options session).1 in
  let score := divLengths (String.length (IEntity.entity entity)) (String.length text) in
  IPromptArgs.promptType (Session.dialogData session) = Some PromptType.time →
  SimplePromptRecognizer.cancelExpTest text = false →
  recognizeTime env text
    (match IPromptArgs.refDate (Session.dialogData session) with
     | None | Some 0%Z => None
     | Some date => Some date
     end)
  = Normal (Some entity) →
  claimed env language text score = false →
  (IEntity.entity entity ≠ "" →
   Session.ended after
   = Some {| IPromptRecognizerResult.resumed := ResumeReason.completed;
             IPromptRecognizerResult.promptType := Some PromptType.time;
             IPromptRecognizerResult.response := Some (TimeResponse entity);
             IPromptRecognizerResult.error := None;
             IPromptRecognizerResult.handled := None |}
   ∧ Session.sent after = Session.sent session)
  ∧ (IEntity.entity entity = "" → unrecognized env session).
Proof.
  intros language text after score Hkind Hcancel Htime Hclaimed.
  assert (Hvalue : SimplePromptRecognizer.recognizeValue env
                     (Prompts.recognizerArgs env session) text
                   = Normal (score, Some (TimeResponse entity))).
  { unfold SimplePromptRecognizer.recognizeValue. simpl. rewrite Hkind.
    destruct (IPromptArgs.refDate (Session.dialogData session)) as [[| |]|];
      by rewrite Htime. }
  assert (Hscore : gtZero score = negb (String.length (IEntity.entity entity) =? 0)%nat)
    by apply gtZero_divLengths.
  split.
  - intros Hspan. unfold after.
    rewrite (turn_completed env options session _ _ Hcancel Hvalue Hclaimed).
    + simpl. by rewrite Hkind.
    + rewrite Hscore. by destruct (IEntity.entity entity).
  - intros Hspan. split; [exact Hcancel|]. exists score, (Some (TimeResponse entity)).
    repeat split; try done. rewrite Hscore, Hspan. done.
Qed.

Lemma time_prompt_entity_witness :
  let noon := {| IEntity.type := "chrono.duration"; IEntity.entity := "noon" |} in
  let env :=
    {| parseNumber := parseNumber Demo.plain;
       parseBoolean := parseBoolean Demo.plain;
       recognizeTime := fun text reference =>
         match reference with
         | None => Normal (Some noon)
         | Some _ => Normal None
         end;
       findBestMatch := findBestMatch Demo.plain;
       numberToString := numberToString Demo.plain;
       randomPrompt := randomPrompt Demo.plain;
       maxButtons := maxButtons Demo.plain;
       vsprintf := vsprintf Demo.plain;
       claimed := claimed Demo.plain |} in
  let session :=
    Session.receive (Demo.says "at noon")
      (Demo.started env
         (IPromptArgs.setRefDate (Some 0%Z) (Demo.args PromptType.time "When?"))) in
  let after := (Prompts.replyReceived env Prompts.defaultOptions session).1 in
  IPromptArgs.refDate (Session.dialogData session) = Some 0%Z
  ∧ SimplePromptRecognizer.cancelExpTest "at noon" = false
  ∧ IEntity.entity noon ≠ ""
  ∧ Session.ended after
    = Some {| IPromptRecognizerResult.resumed := ResumeReason.completed;
              IPromptRecognizerResult.promptType := Some PromptType.time;
              IPromptRecognizerResult.response := Some (TimeResponse noon);
              IPromptRecognizerResult.error := None;
              IPromptRecognizerResult.handled := None |}.
Proof.
  intros noon env session after.
  assert (Hspan : IEntity.entity noon ≠ "") by discriminate.
  split; [reflexivity|]. split; [reflexivity|]. split; [exact Hspan|].
  exact (proj1 (proj1 (time_prompt_entity env Prompts.defaultOptions session noon
                         eq_refl eq_refl eq_refl eq_refl) Hspan)).
Defined.

(** X6. A number prompt ends as completed, with the parsed number as the
    response, on every reply that is neither a cancellation nor claimed and
    in which the parser finds a number, however much other text the reply
    holds: the score, the printed length of the number over the length of
    the reply, is above 0 as soon as the printed number is not empty, and
    only the arbitration looks at its size. *)
Theorem number_prompt_completes
    (env : Collaborators) (options : Prompts.IPromptsOptions) (session : Session.t)
    (n : number) :
  let language := IMessage.language (Session.message session) in
  let text := Str.trim (IMessage.text (Session.message session)) in
  let after := (Prompts.replyReceived env options session).1 in
  let score := divLengths (String.length (numberToString env n)) (String.length text) in
  IPromptArgs.promptType (Session.dialogData session) = Some PromptType.number →
  SimplePromptRecognizer.cancelExpTest text = false →
  parseNumber env text = Normal n →
  isNaN n = false →
  numberToString env n ≠ "" →
  claimed env language text score = false →
  Session.ended after
  = Some {| IPromptRecognizerResult.resumed := ResumeReason.completed;
            IPromptRecognizerResult.promptType := Some PromptType.number;
            IPromptRecognizerResult.response := Some (NumberResponse n);
            IPromptRecognizerResult.error := None;
            IPromptRecognizerResult.handled := None |}
  ∧ Session.sent after = Session.sent session
  ∧ Session.dialogData after = Session.dialogData session.
Proof.
  intros language text after score Hkind Hcancel Hparse Hnan Hprinted Hclaimed.
  assert (Hvalue : SimplePromptRecognizer.recognizeValue env
                     (Prompts.recognizerArgs env session) text
                   = Normal (score, Some (NumberResponse n))).
  { unfold SimplePromptRecognizer.recognizeValue. simpl. rewrite Hkind, Hparse. simpl.
    by rewrite Hnan. }
  unfold after. rewrite (turn_completed env options session _ _ Hcancel Hvalue Hclaimed).
  - simpl. by rewrite Hkind.
  - unfold score. rewrite gtZero_divLengths. by destruct (numberToString env n).
Qed.

Lemma number_prompt_completes_witness :
  let session :=
    Session.receive (Demo.says "0012")
      (Demo.started Demo.plain (Demo.args PromptType.number "How many?")) in
  let after := (Prompts.replyReceived Demo.plain Prompts.defaultOptions session).1 in
  parseNumber Demo.plain "0012" = Normal (Num 12)
  ∧ numberToString Demo.plain (Num 12) ≠ ""
  ∧ Session.ended after
    = Some {| IPromptRecognizerResult.resumed := ResumeReason.completed;
              IPromptRecognizerResult.promptType := Some PromptType.number;
              IPromptRecognizerResult.response := Some (NumberResponse (Num 12));
              IPromptRecognizerResult.error := None;
              IPromptRecognizerResult.handled := None |}.
Proof.
  intros session after.
  assert (Hprinted : numberToString Demo.plain (Num 12) ≠ "") by discriminate.
  split; [reflexivity|]. split; [exact Hprinted|].
  exact (proj1 (number_prompt_completes Demo.plain Prompts.defaultOptions session (Num 12)
                  eq_refl eq_refl eq_refl eq_refl Hprinted eq_refl)).
Defined.

(** X7. For a choice prompt, a match among the candidate labels decides
    alone: when the matcher returns a match on a reply that is neither a
    cancellation nor claimed and the score of the match is above 0, the
    dialog ends as completed with that match. The number parser is not
    asked, so the result is the same with a parser that raises. *)
Theorem choice_prompt_match_wins
    (env : Collaborators) (options : Prompts.IPromptsOptions) (session : Session.t)
    (best : IFindMatchResult.t) :
  let language := IMessage.language (Session.message session) in
  let text := Str.trim (IMessage.text (Session.message session)) in
  let after := (Prompts.replyReceived env options session).1 in
  IPromptArgs.promptType (Session.dialogData session) = Some PromptType.choice →
  SimplePromptRecognizer.cancelExpTest text = false →
  findBestMatch env (IPromptArgs.enumValues (Session.dialogData session)) text
  = Normal (Some best) →
  gtZero (IFindMatchResult.score best) = true →
  claimed env language text (IFindMatchResult.score best) = false →
  Session.ended after
  = Some {| IPromptRecognizerResult.resumed := ResumeReason.completed;
            IPromptRecognizerResult.promptType := Some PromptType.choice;
            IPromptRecognizerResult.response := Some (ChoiceResponse best);
            IPromptRecognizerResult.error := None;
            IPromptRecognizerResult.handled := None |}
  ∧ Session.sent after = Session.sent session
  ∧ Session.dialogData after = Session.dialogData session.
Proof.
  intros language text after Hkind Hcancel Hbest Hscore Hclaimed.
  assert (Hvalue : SimplePromptRecognizer.recognizeValue env
                     (Prompts.recognizerArgs env session) text
                   = Normal (IFindMatchResult.score best, Some (ChoiceResponse best))).
  { unfold SimplePromptRecognizer.recognizeValue. simpl. by rewrite Hkind, Hbest. }
  unfold after.
  rewrite (turn_completed env options session _ _ Hcancel Hvalue Hclaimed Hscore).
  simpl. by rewrite Hkind.
Qed.

Lemma choice_prompt_match_wins_witness :
  let env := Demo.collaborators [] 0 (Some (ThrownValue "parser failure")) in
  let session :=
    Session.receive (Demo.says "green") (Demo.started env (Demo.choiceArgs "Pick" Demo.colours)) in
  let after := (Prompts.replyReceived env Prompts.defaultOptions session).1 in
  let best :=
    {| IFindMatchResult.index := Num 1;
       IFindMatchResult.entity := Some "Green";
       IFindMatchResult.score := Num 1 |} in
  parseNumber env "green" = Throw (ThrownValue "parser failure")
  ∧ findBestMatch env (Some Demo.colours) "green" = Normal (Some best)
  ∧ Session.ended after
    = Some {| IPromptRecognizerResult.resumed := ResumeReason.completed;
              IPromptRecognizerResult.promptType := Some PromptType.choice;
              IPromptRecognizerResult.response := Some (ChoiceResponse best);
              IPromptRecognizerResult.error := None;
              IPromptRecognizerResult.handled := None |}.
Proof.
  intros env session after best. split; [reflexivity|]. split; [reflexivity|].
  exact (proj1 (choice_prompt_match_wins env Prompts.defaultOptions session best
                  eq_refl eq_refl eq_refl eq_refl eq_refl)).
Defined.

(** X8. For a choice prompt with candidate labels, a reply in which no
    label matches and the parser reads a whole number [k], neither a
    cancellation nor claimed: when [1 <= k <= count] the dialog ends as
    completed with the label at position [k], the index [k] and the score 1;
    for every other whole number, 0 and the negative ones included, the
    reply counts as not recognized. *)
Theorem choice_prompt_whole_ordinal
    (env : Collaborators) (options : Prompts.IPromptsOptions) (session : Session.t)
    (values : list string) (k : Z) :
  let language := IMessage.language (Session.message session) in
  let text := Str.trim (IMessage.text (Session.message session)) in
  let after := (Prompts.replyReceived env options session).1 in
  IPromptArgs.promptType (Session.dialogData session) = Some PromptType.choice →
  IPromptArgs.enumValues (Session.dialogData session) = Some values →
  SimplePromptRecognizer.cancelExpTest text = false →
  findBestMatch env (Some values) text = Normal None →
  parseNumber env text = Normal (Num (inject_Z k)) →
  (∀ score, claimed env language text score = false) →
  ((1 ≤ k ≤ Z.of_nat (length values))%Z →
   ∃ label,
     values !! Z.to_nat (k - 1) = Some label
     ∧ Session.ended after
       = Some {| IPromptRecognizerResult.resumed := ResumeReason.completed;
                 IPromptRecognizerResult.promptType := Some PromptType.choice;
                 IPromptRecognizerResult.response :=
                   Some (ChoiceResponse
                           {| IFindMatchResult.index := Num (inject_Z k);
                              IFindMatchResult.entity := Some label;
                              IFindMatchResult.score := Num 1 |});
                 IPromptRecognizerResult.error := None;
                 IPromptRecognizerResult.handled := None |})
  ∧ (¬ (1 ≤ k ≤ Z.of_nat (length values))%Z → unrecognized env session).
Proof.
  intros language text after Hkind Hvalues Hcancel Hbest Hparse Hclaimed.
  pose proof (choice_ordinal_integer env (Prompts.recognizerArgs env session) text k values
                Hkind Hvalues Hbest Hparse) as Hvalue.
  split; intros Hrange.
  - rewrite decide_True in Hvalue by done.
    destruct (lookup_lt_is_Some_2 values (Z.to_nat (k - 1))) as [label Hlabel]; [lia|].
    exists label. split; [done|].
    assert (Hnth : nth_error values (Z.to_nat (k - 1)) = Some label).
    { rewrite <- Hlabel. clear. generalize (Z.to_nat (k - 1)).
      induction values as [|v values IH]; intros [|i]; simpl; done. }
    rewrite Hnth in Hvalue. unfold after.
    rewrite (turn_completed env options session _ _ Hcancel Hvalue (Hclaimed _) eq_refl).
    simpl. by rewrite Hkind.
  - rewrite decide_False in Hvalue by done.
    split; [exact Hcancel|]. exists (Num 0), None. by repeat split.
Qed.

Lemma choice_prompt_whole_ordinal_witness :
  let session :=
    Session.receive (Demo.says "3")
      (Demo.started Demo.plain (Demo.choiceArgs "Pick" Demo.colours)) in
  let after := (Prompts.replyReceived Demo.plain Prompts.defaultOptions session).1 in
  findBestMatch Demo.plain (Some Demo.colours) "3" = Normal None
  ∧ parseNumber Demo.plain "3" = Normal (Num (inject_Z 3))
  ∧ (∀ score, claimed Demo.plain (Some "en") "3" score = false)
  ∧ (1 ≤ 3 ≤ Z.of_nat (length Demo.colours))%Z
  ∧ ∃ label,
      Demo.colours !! Z.to_nat (3 - 1) = Some label
      ∧ Session.ended after
        = Some {| IPromptRecognizerResult.resumed := ResumeReason.completed;
                  IPromptRecognizerResult.promptType := Some PromptType.choice;
                  IPromptRecognizerResult.response :=
                    Some (ChoiceResponse
                            {| IFindMatchResult.index := Num (inject_Z 3);
                               IFindMatchResult.entity := Some label;
                               IFindMatchResult.score := Num 1 |});
                  IPromptRecognizerResult.error := None;
                  IPromptRecognizerResult.handled := None |}.
Proof.
  intros session after.
  assert (Hclaimed : ∀ score, claimed Demo.plain (Some "en") "3" score = false)
    by (intros score; reflexivity).
  assert (Hrange : (1 ≤ 3 ≤ Z.of_nat (length Demo.colours))%Z) by (simpl; lia).
  split; [reflexivity|]. split; [reflexivity|]. split; [exact Hclaimed|].
  split; [exact Hrange|].
  exact (proj1 (choice_prompt_whole_ordinal Demo.plain Prompts.defaultOptions session
                  Demo.colours 3 eq_refl eq_refl eq_refl eq_refl eq_refl Hclaimed) Hrange).
Defined.

(** X9. A choice prompt without candidate labels: when no label matches and
    the parser reads a number above 0, reading the length of the missing
    list raises; the recognizer catches it, and the turn ends the dialog
    with an outcome that carries the error, without asking the arbitration,
    without sending a message and without touching the persisted data. *)
Theorem choice_prompt_without_candidates
    (env : Collaborators) (options : Prompts.IPromptsOptions) (session : Session.t)
    (n : number) :
  let text := Str.trim (IMessage.text (Session.message session)) in
  let after := (Prompts.replyReceived env options session).1 in
  IPromptArgs.promptType (Session.dialogData session) = Some PromptType.choice →
  IPromptArgs.enumValues (Session.dialogData session) = None →
  SimplePromptRecognizer.cancelExpTest text = false →
  findBestMatch env None text = Normal None →
  parseNumber env text = Normal n →
  gtZero n = true →
  (∃ error,
     Session.ended after
     = Some {| IPromptRecognizerResult.resumed := ResumeReason.notCompleted;
               IPromptRecognizerResult.promptType := Some PromptType.choice;
               IPromptRecognizerResult.response := None;
               IPromptRecognizerResult.error := Some error;
               IPromptRecognizerResult.handled := None |})
  ∧ (Prompts.replyReceived env options session).2 = None
  ∧ Session.compared after = Session.compared session
  ∧ Session.sent after = Session.sent session
  ∧ Session.dialogData after = Session.dialogData session.
Proof.
  intros text after Hkind Hvalues Hcancel Hbest Hparse Hpositive.
  assert (Hvalue : SimplePromptRecognizer.recognizeValue env
                     (Prompts.recognizerArgs env session) text
                   = Throw (typeError "length")).
  { unfold SimplePromptRecognizer.recognizeValue. simpl.
    rewrite Hkind, Hvalues, Hbest. simpl. rewrite Hparse. simpl.
    destruct n as [| |q]; simpl in *; [done|done|]. by rewrite Hpositive. }
  unfold after. rewrite replyReceived_unfold. simpl. fold text. rewrite Hcancel, Hvalue.
  rewrite onRecognized_error by (simpl; eauto). simpl. rewrite Hkind.
  split; [by eexists|done].
Qed.

Lemma choice_prompt_without_candidates_witness :
  let args :=
    IPromptArgs.setListStyle (Some ListStyle.none) (Demo.args PromptType.choice "Pick") in
  let session := Session.receive (Demo.says "2") (Demo.started Demo.plain args) in
  let after := (Prompts.replyReceived Demo.plain Prompts.defaultOptions session).1 in
  IPromptArgs.enumValues (Session.dialogData session) = None
  ∧ parseNumber Demo.plain "2" = Normal (Num 2)
  ∧ gtZero (Num 2) = true
  ∧ (∃ error,
       Session.ended after
       = Some {| IPromptRecognizerResult.resumed := ResumeReason.notCompleted;
                 IPromptRecognizerResult.promptType := Some PromptType.choice;
                 IPromptRecognizerResult.response := None;
                 IPromptRecognizerResult.error := Some error;
                 IPromptRecognizerResult.handled := None |})
  ∧ Session.compared after = Session.compared session.
Proof.
  intros args session after. repeat (split; [reflexivity|]).
  destruct (choice_prompt_without_candidates Demo.plain Prompts.defaultOptions session (Num 2)
              eq_refl eq_refl eq_refl eq_refl eq_refl eq_refl) as (Hended & _ & Hcompared & _).
  split; [exact Hended | exact Hcompared].
Defined.

(** * Further properties of the dialog *)







(** The turn on a message that has a text is [replyReceived] on the
    session the message has arrived in, and returns normally. *)
Lemma turn_with_text (env : Collaborators) (options : Prompts.IPromptsOptions)
    (reply : Conversation.Incoming) (utterance : string) (session : Session.t) :
  Conversation.text reply = Some utterance →
  Conversation.turn env options reply session
  = ((Prompts.replyReceived env options
        (Session.receive (Conversation.withText utterance reply) session)).1, None).
Proof.
  intros Htext. unfold Conversation.turn. rewrite Htext.
  pose proof (replyReceived_returns env options
                (Session.receive (Conversation.withText utterance reply) session)) as Hreturns.
  by destruct (Prompts.replyReceived _ _ _) as [after raised]; simpl in *; subst.
Qed.



(** X13. A negative counter is never used up. The test for an exhausted
    budget is [maxRetries == 0]; from a counter below 0, in a dialog whose
    retry prompt renders, every reply that is neither recognized nor claimed
    is answered with a retry message and lowers the counter further, so no
    number of such replies ends the dialog. *)
Theorem negative_budget_never_runs_out
    (env : Collaborators) (options : Prompts.IPromptsOptions)
    (replies : list Conversation.Incoming) (session : Session.t) (n : Z) :
  printfLaw env →
  renderable env options (Session.dialogData session) true →
  IPromptArgs.maxRetries (Session.dialogData session) = Some n →
  (n < 0)%Z →
  Session.ended session = None →
  Conversation.unrecognizedAll env options replies session →
  let final := (Conversation.deliver env options replies session).1 in
  Session.ended final = None
  ∧ IPromptArgs.maxRetries (Session.dialogData final) = Some (n - Z.of_nat (length replies))%Z
  ∧ length (Session.sent final) = length (Session.sent session) + length replies.
Proof.
  intros Hlaw. revert session n. induction replies as [|reply replies IH];
    intros session n Hrender Hn Hneg Hopen Hall; simpl.
  - rewrite Hn, Hopen. repeat split; [f_equal; lia | lia].
  - rewrite Hopen. destruct Hall as [(utterance & Htext & Hun) Hall].
    rewrite (turn_with_text env options reply utterance session Htext) in Hall |- *.
    set (arrived := Session.receive (Conversation.withText utterance reply) session) in *.
    destruct (turn_retried env options arrived n Hlaw Hrender Hn ltac:(lia) Hun)
      as (_ & Hdata & Hended & msg & _ & Hsent).
    set (after := (Prompts.replyReceived env options arrived).1) in *.
    destruct (IH after (n - 1)%Z) as (Hfinal & Hcounter & Hcount).
    + rewrite Hdata. by apply renderable_setMaxRetries.
    + by rewrite Hdata.
    + lia.
    + by rewrite Hended.
    + exact Hall.
    + split; [exact Hfinal|]. split.
      * rewrite Hcounter. f_equal. lia.
      * rewrite Hcount, Hsent, length_app. simpl.
        change (Session.sent arrived) with (Session.sent session). lia.
Qed.

Lemma negative_budget_never_runs_out_witness :
  let says text :=
    {| Conversation.text := Some text; Conversation.language := Some "en";
       Conversation.attachments := [] |} in
  let session :=
    Demo.started Demo.plain
      (IPromptArgs.setMaxRetries (Some (-1)%Z) (Demo.choiceArgs "Pick" Demo.colours)) in
  let replies := [says "a lot"; says "many"; says "dunno"] in
  let final := (Conversation.deliver Demo.plain Prompts.defaultOptions replies session).1 in
  printfLaw Demo.plain
  ∧ renderable Demo.plain Prompts.defaultOptions (Session.dialogData session) true
  ∧ IPromptArgs.maxRetries (Session.dialogData session) = Some (-1)%Z
  ∧ Conversation.unrecognizedAll Demo.plain Prompts.defaultOptions replies session
  ∧ Session.ended final = None
  ∧ IPromptArgs.maxRetries (Session.dialogData final) = Some (-4)%Z.
Proof.
  intros says session replies final.
  assert (Hrender : renderable Demo.plain Prompts.defaultOptions (Session.dialogData session) true).
  { split; [intros _; exists Demo.colours; reflexivity|].
    intros _ prompt [= <-]. reflexivity. }
  assert (Hall : Conversation.unrecognizedAll Demo.plain Prompts.defaultOptions replies session).
  { repeat split; eexists; (split; [reflexivity|]);
      (split; [reflexivity | exists (Num 0), None; repeat split; reflexivity]). }
  split; [apply printfLaw_examples|]. split; [exact Hrender|].
  split; [reflexivity|]. split; [exact Hall|].
  destruct (negative_budget_never_runs_out Demo.plain Prompts.defaultOptions replies session
              (-1) (printfLaw_examples [] 0 None) Hrender eq_refl ltac:(lia) eq_refl Hall)
    as (Hended & Hcounter & _).
  split; [exact Hended | exact Hcounter].
Defined.

(** * Further properties of the rendering *)

Lemma commaJoined_cons (item : string) (items : list string) :
  2 ≤ length items → commaJoined (item :: items) = item +:+ ", " +:+ commaJoined items.
Proof.
  destruct items as [|a [|b items]]; intros Hlen; simpl in Hlen; try lia.
  assert (Hall : commaJoined (item :: a :: b :: items)
                 = (item +:+ ", " +:+ joined ", " (removelast (a :: b :: items)))
                   +:+ ", or " +:+ default "" (last (a :: b :: items))) by reflexivity.
  assert (Htail : commaJoined (a :: b :: items)
                  = joined ", " (removelast (a :: b :: items))
                    +:+ ", or " +:+ default "" (last (a :: b :: items))) by reflexivity.
  by rewrite Hall, Htail, !append_assoc.
Qed.

(** The loop of the inline style, from any position on, when the
    enumeration has at least three items. *)
Lemma inlineStep_loop (count : nat) (values : list string) (index : nat)
    (list connector : string) :
  index + length values = count → 3 ≤ count → values ≠ [] →
  (fold_left (Prompts.inlineStep count) (combine (seq index (length values)) values)
     (list, connector)).1
  = list +:+ connector +:+ commaJoined (numberedFrom (S index) values).
Proof.
  revert index list connector.
  induction values as [|v values IH]; intros index list connector Hcount H3 Hne; [done|].
  destruct values as [|w values].
  - simpl. by rewrite Nat.add_1_r.
  - change (fold_left (Prompts.inlineStep count)
              (combine (seq index (length (v :: w :: values))) (v :: w :: values))
              (list, connector))
      with (fold_left (Prompts.inlineStep count)
              (combine (seq (S index) (length (w :: values))) (w :: values))
              (Prompts.inlineStep count (list, connector) (index, v))).
    unfold Prompts.inlineStep at 2. rewrite IH by (simpl in *; try lia; done).
    rewrite Nat.add_1_r.
    change (numberedFrom (S index) (v :: w :: values))
      with ((Str.ofNat (S index) +:+ ". " +:+ v) :: numberedFrom (S (S index)) (w :: values)).
    destruct values as [|u values]; simpl in Hcount.
    + rewrite (proj2 (Z.eqb_eq (Z.of_nat index) (Z.of_nat count - 2))) by lia.
      rewrite (proj2 (Nat.eqb_neq index 0)) by lia.
      simpl. by rewrite !append_assoc.
    + rewrite (proj2 (Z.eqb_neq (Z.of_nat index) (Z.of_nat count - 2))) by lia.
      rewrite commaJoined_cons by (simpl; lia).
      by rewrite !append_assoc.
Qed.

(** The text the inline style appends, for any number of candidates. *)
Lemma inlineList_any (values : list string) :
  Prompts.inlineList values = " " +:+ inlineEnumeration values.
Proof.
  destruct (decide (length values < 4)) as [Hshort|Hlong]; [by apply inlineList_short|].
  unfold Prompts.inlineList, Prompts.indexed.
  rewrite (inlineStep_loop (length values) values 0 " " "");
    [| lia | lia | intros ->; simpl in Hlong; lia].
  destruct values as [|a [|b [|c values]]]; simpl in Hlong; try lia. reflexivity.
Qed.

Lemma numberedList_any (values : list string) :
  Prompts.numberedList values = newLine +:+ lineEnumeration values.
Proof.
  destruct values as [|v values]; [reflexivity|]. by apply numberedList_lines.
Qed.

(** X14. A choice prompt with an explicit list style is rendered in that
    style for any number of candidates and without asking the channel for
    its capacity: button as the text with one action per label, none or no
    style as the text alone; inline and list with the text, followed by
    [%s], as the format and the enumeration as its argument, which for a
    text without percent sign gives the text and the one-line enumeration
    (commas, " or " before the last of two, ", or " before the last of
    more), or the text and one numbered item per line. *)
Theorem explicit_list_style
    (env : Collaborators) (options : Prompts.IPromptsOptions) (session : Session.t)
    (args : IPromptArgs.t) (retry : bool) (prompt : string) (values : list string) :
  Prompts.basePrompt env options args retry = Prompts.ChosenText prompt →
  IPromptArgs.promptType args = Some PromptType.choice →
  IPromptArgs.listStyle args ≠ Some ListStyle.auto →
  IPromptArgs.enumValues args = Some values →
  IPromptArgs.enumValues (Session.dialogData session) = Some values →
  let plain text :=
    {| IMessage.text := text; IMessage.language := None; IMessage.attachments := [] |} in
  Prompts.formatPrompt env options session args retry
  = match IPromptArgs.listStyle args with
    | Some ListStyle.button =>
        Normal (Some {| IMessage.text := prompt; IMessage.language := None;
                        IMessage.attachments := [buttonsOf values] |})
    | Some ListStyle.inline =>
        text ← vsprintf env (prompt +:+ "%s") [" " +:+ inlineEnumeration values];
        Normal (Some (plain text))
    | Some ListStyle.list =>
        text ← vsprintf env (prompt +:+ "%s") [newLine +:+ lineEnumeration values];
        Normal (Some (plain text))
    | _ => Normal (Some (plain prompt))
    end
  ∧ (printfLaw env → holdsPercent prompt = false →
     Prompts.formatPrompt env options session args retry
     = Normal (Some
         match IPromptArgs.listStyle args with
         | Some ListStyle.button =>
             {| IMessage.text := prompt; IMessage.language := None;
                IMessage.attachments := [buttonsOf values] |}
         | Some ListStyle.inline => plain (prompt +:+ " " +:+ inlineEnumeration values)
         | Some ListStyle.list => plain (prompt +:+ newLine +:+ lineEnumeration values)
         | _ => plain prompt
         end)).
Proof.
  intros Hbase Hkind Hstyle Hvalues Hdata plain.
  assert (Hformat : Prompts.formatPrompt env options session args retry
    = match IPromptArgs.listStyle args with
      | Some ListStyle.button =>
          Normal (Some {| IMessage.text := prompt; IMessage.language := None;
                          IMessage.attachments := [buttonsOf values] |})
      | Some ListStyle.inline =>
          text ← vsprintf env (prompt +:+ "%s") [" " +:+ inlineEnumeration values];
          Normal (Some (plain text))
      | Some ListStyle.list =>
          text ← vsprintf env (prompt +:+ "%s") [newLine +:+ lineEnumeration values];
          Normal (Some (plain text))
      | _ => Normal (Some (plain prompt))
      end).
  { unfold Prompts.formatPrompt. rewrite Hbase, Hkind, Hvalues, Hdata. simpl.
    rewrite decide_False by done. simpl.
    destruct (IPromptArgs.listStyle args) as [[]|]; simpl; try done.
    - by rewrite inlineList_any.
    - by rewrite numberedList_any. }
  split; [exact Hformat|]. intros Hlaw Hfree. rewrite Hformat.
  destruct (IPromptArgs.listStyle args) as [[]|]; try done; by rewrite (Hlaw prompt _ Hfree).
Qed.

Lemma explicit_list_style_witness :
  let labels := ["Red"; "Green"; "Blue"; "Black"; "White"] in
  let args := IPromptArgs.setListStyle (Some ListStyle.inline) (Demo.choiceArgs "Pick" labels) in
  let session := Demo.started Demo.plain args in
  IPromptArgs.listStyle args ≠ Some ListStyle.auto
  ∧ printfLaw Demo.plain
  ∧ holdsPercent "Pick" = false
  ∧ Prompts.formatPrompt Demo.plain Prompts.defaultOptions session args false
    = Normal (Some {| IMessage.text := "Pick 1. Red, 2. Green, 3. Blue, 4. Black, or 5. White";
                      IMessage.language := None; IMessage.attachments := [] |}).
Proof.
  intros labels args session.
  assert (Hstyle : IPromptArgs.listStyle args ≠ Some ListStyle.auto) by discriminate.
  split; [exact Hstyle|]. split; [apply printfLaw_examples|]. split; [reflexivity|].
  exact (proj2 (explicit_list_style Demo.plain Prompts.defaultOptions session args false "Pick"
                  labels eq_refl eq_refl Hstyle eq_refl eq_refl)
           (printfLaw_examples [] 0 None) eq_refl).
Defined.

(** X15. A prompt given as an already composed message is sent as it is,
    for every kind of prompt and every list style, with or without candidate
    labels: nothing is added to it and nothing is read that could raise. On
    a retry this holds when the bag has no retry prompt (or an empty one). *)
Theorem composed_prompt_is_sent_as_is
    (env : Collaborators) (options : Prompts.IPromptsOptions) (session : Session.t)
    (args : IPromptArgs.t) (retry : bool) (composed : IMessage.t) :
  IPromptArgs.prompt args = Some (Composed composed) →
  retry = false ∨ Prompts.truthy (IPromptArgs.retryPrompt args) = false →
  Prompts.formatPrompt env options session args retry = Normal (Some composed).
Proof.
  intros Hprompt Hretry. unfold Prompts.formatPrompt, Prompts.basePrompt.
  rewrite Hprompt. simpl. destruct Hretry as [->| ->]; [done|]. by destruct retry.
Qed.

Lemma composed_prompt_is_sent_as_is_witness :
  let card :=
    {| IMessage.text := "Pick a colour"; IMessage.language := Some "en";
       IMessage.attachments := [buttonsOf ["Red"; "Blue"]] |} in
  let args :=
    IPromptArgs.setPrompt (Some (Composed card)) (Demo.choiceArgs "" ["Red"; "Blue"]) in
  IPromptArgs.prompt args = Some (Composed card)
  ∧ Prompts.formatPrompt Demo.plain Prompts.defaultOptions Demo.fresh args true
    = Normal (Some card).
Proof.
  intros card args. split; [reflexivity|].
  exact (composed_prompt_is_sent_as_is Demo.plain Prompts.defaultOptions Demo.fresh args true
           card eq_refl (or_intror eq_refl)).
Defined.

(** X16. The text of a retry, for a prompt that is not a choice: a retry
    prompt that is a text other than the empty one is sent alone, whatever
    the prompt of the bag is; without a retry prompt, or with the empty
    text as retry prompt, a textual prompt is sent again behind the default
    retry prompt and one space. *)
Theorem retry_text
    (env : Collaborators) (options : Prompts.IPromptsOptions) (session : Session.t)
    (args : IPromptArgs.t) :
  IPromptArgs.promptType args ≠ Some PromptType.choice →
  (∀ again, IPromptArgs.retryPrompt args = Some (Literal again) → again ≠ "" →
     Prompts.formatPrompt env options session args true
     = Normal (Some {| IMessage.text := again; IMessage.language := None;
                       IMessage.attachments := [] |}))
  ∧ (∀ prompt,
       IPromptArgs.retryPrompt args = None ∨ IPromptArgs.retryPrompt args = Some (Literal "") →
       IPromptArgs.prompt args = Some (Literal prompt) →
       Prompts.formatPrompt env options session args true
       = Normal (Some {| IMessage.text :=
                           Prompts.defaultRetryPrompt options +:+ " " +:+ prompt;
                         IMessage.language := None; IMessage.attachments := [] |})).
Proof.
  intros Hkind. split.
  - intros again Hagain Hne. unfold Prompts.formatPrompt, Prompts.basePrompt.
    rewrite Hagain. destruct again as [|c again]; [done|]. simpl.
    by rewrite decide_False.
  - intros prompt Hagain Hprompt. unfold Prompts.formatPrompt, Prompts.basePrompt.
    rewrite Hprompt. destruct Hagain as [-> | ->]; simpl; by rewrite decide_False.
Qed.

Lemma retry_text_witness :
  let args :=
    IPromptArgs.setRetryPrompt (Some (Literal "")) (Demo.args PromptType.number "How many?") in
  IPromptArgs.promptType args ≠ Some PromptType.choice
  ∧ Prompts.formatPrompt Demo.plain Prompts.defaultOptions Demo.fresh args true
    = Normal (Some {| IMessage.text := "I didn't understand. How many?";
                      IMessage.language := None; IMessage.attachments := [] |}).
Proof.
  intros args.
  assert (Hkind : IPromptArgs.promptType args ≠ Some PromptType.choice) by discriminate.
  split; [exact Hkind|].
  exact (proj2 (retry_text Demo.plain Prompts.defaultOptions Demo.fresh args Hkind)
           "How many?" (or_intror eq_refl) eq_refl).
Defined.

(** X17. The configured default retry prompt matters only to a retry
    without a retry prompt of its own: the first rendering of a prompt, and
    every retry of a bag that has a retry prompt, are the same under any two
    configurations. *)
Theorem configuration_matters_only_to_default_retry
    (env : Collaborators) (options options' : Prompts.IPromptsOptions) (session : Session.t)
    (args : IPromptArgs.t) (retry : bool) :
  retry = false ∨ Prompts.truthy (IPromptArgs.retryPrompt args) = true →
  Prompts.formatPrompt env options session args retry
  = Prompts.formatPrompt env options' session args retry.
Proof.
  intros Hretry.
  assert (Hbase : Prompts.basePrompt env options args retry
                  = Prompts.basePrompt env options' args retry).
  { unfold Prompts.basePrompt. destruct Hretry as [-> | ->]; [done|]. by destruct retry. }
  unfold Prompts.formatPrompt. by rewrite Hbase.
Qed.

Lemma configuration_matters_only_to_default_retry_witness :
  let args :=
    IPromptArgs.setRetryPrompt (Some (Literal "A number, please."))
      (Demo.args PromptType.number "How many?") in
  Prompts.truthy (IPromptArgs.retryPrompt args) = true
  ∧ Prompts.formatPrompt Demo.plain {| Prompts.defaultRetryPrompt := "Sorry?" |}
      Demo.fresh args true
    = Prompts.formatPrompt Demo.plain Prompts.defaultOptions Demo.fresh args true.
Proof.
  intros args. split; [reflexivity|].
  exact (configuration_matters_only_to_default_retry Demo.plain
           {| Prompts.defaultRetryPrompt := "Sorry?" |} Prompts.defaultOptions Demo.fresh args
           true (or_intror eq_refl)).
Defined.

(** * Further properties of [begin] and of the entry points *)

(** [begin] on a bag that is rendered. *)
Lemma begin_returns (env : Collaborators) (options : Prompts.IPromptsOptions)
    (args : option IPromptArgs.t) (session : Session.t) :
  let bag :=
    IPromptArgs.setMaxRetries
      (Some (Prompts.orElse (IPromptArgs.maxRetries (default IPromptArgs.empty args)) 1))
      (default IPromptArgs.empty args) in
  let after := (Prompts.begin env options args session).1 in
  (IPromptArgs.promptType bag = Some PromptType.choice → printfLaw env) →
  renderable env options bag false →
  (Prompts.begin env options args session).2 = None
  ∧ Session.ended after = Session.ended session
  ∧ ∃ msg, Prompts.formatPrompt env options after bag false = Normal msg
           ∧ Session.sent after = Session.sent session ++ [msg].
Proof.
  intros bag after Hlaw Hrender. unfold after, Prompts.begin. fold bag.
  set (copied := fold_left _ (IPromptArgs.ownKeys bag) session).
  destruct (copy_loop bag (IPromptArgs.ownKeys bag) session)
    as (Hin & _ & Hsent & Hended & _ & Hmessage); [done|]. fold copied in Hin, Hsent, Hended.
  destruct (formatPrompt_returns env options copied bag false Hlaw Hrender) as [msg Hmsg].
  { intros Hkind. destruct (proj1 Hrender Hkind) as [values Hvalues].
    assert (Hown : "enumValues" ∈ IPromptArgs.ownKeys bag).
    { unfold IPromptArgs.ownKeys. rewrite !elem_of_app. do 2 right. left.
      rewrite Hvalues. by apply list_elem_of_singleton. }
    specialize (Hin "enumValues" Hown).
    change (IPromptArgs.VStrings <$> IPromptArgs.enumValues (Session.dialogData copied)
            = IPromptArgs.VStrings <$> IPromptArgs.enumValues bag) in Hin.
    rewrite Hvalues in Hin |- *.
    destruct (IPromptArgs.enumValues (Session.dialogData copied)); by inversion Hin. }
  unfold Prompts.sendPrompt. rewrite Hmsg. simpl. repeat split; try done.
  exists msg. split; [|by rewrite Hsent]. rewrite <- Hmsg. by apply formatPrompt_session.
Qed.

(** X18. [begin] on a bag that is rendered (no choice, or a choice with
    candidate labels whose text holds no percent sign), on any session: it
    returns normally, sends exactly one message, the prompt rendered as a
    first prompt and not as a retry, does not end the dialog, and the
    counter of the dialog is the bag's [maxRetries], or 1 when that is
    absent or 0. *)
Theorem begin_sends_the_first_prompt
    (env : Collaborators) (options : Prompts.IPromptsOptions)
    (args : IPromptArgs.t) (session : Session.t) :
  let after := (Prompts.begin env options (Some args) session).1 in
  let bag :=
    IPromptArgs.setMaxRetries (Some (Prompts.orElse (IPromptArgs.maxRetries args) 1)) args in
  printfLaw env →
  renderable env options args false →
  (Prompts.begin env options (Some args) session).2 = None
  ∧ Session.ended after = Session.ended session
  ∧ (∃ msg, Prompts.formatPrompt env options after bag false = Normal msg
            ∧ Session.sent after = Session.sent session ++ [msg])
  ∧ IPromptArgs.maxRetries (Session.dialogData after)
    = Some match IPromptArgs.maxRetries args with
           | None | Some 0%Z => 1%Z
           | Some retries => retries
           end.
Proof.
  intros after bag Hlaw Hrender.
  destruct (begin_returns env options (Some args) session (fun _ => Hlaw))
    as (Hnone & Hended & Hmsg); [by apply renderable_setMaxRetries|].
  repeat split; try done.
  unfold after. rewrite begin_maxRetries. simpl.
  by destruct (IPromptArgs.maxRetries args) as [[| |]|].
Qed.

Lemma begin_sends_the_first_prompt_witness :
  let args := IPromptArgs.setMaxRetries (Some (-2)%Z) (Demo.choiceArgs "Pick" Demo.colours) in
  let after := (Prompts.begin Demo.plain Prompts.defaultOptions (Some args) Demo.fresh).1 in
  printfLaw Demo.plain
  ∧ renderable Demo.plain Prompts.defaultOptions args false
  ∧ (Prompts.begin Demo.plain Prompts.defaultOptions (Some args) Demo.fresh).2 = None
  ∧ Session.sent after
    = [Some {| IMessage.text := "Pick 1. Red, 2. Green, or 3. Blue"; IMessage.language := None;
               IMessage.attachments := [] |}]
  ∧ IPromptArgs.maxRetries (Session.dialogData after) = Some (-2)%Z.
Proof.
  intros args after.
  assert (Hrender : renderable Demo.plain Prompts.defaultOptions args false).
  { split; [intros _; by exists Demo.colours|]. intros _ prompt [= <-]. reflexivity. }
  split; [apply printfLaw_examples|]. split; [exact Hrender|].
  destruct (begin_sends_the_first_prompt Demo.plain Prompts.defaultOptions args Demo.fresh
              (printfLaw_examples [] 0 None) Hrender)
    as (Hnone & _ & _ & Hcounter).
  split; [exact Hnone|]. split; [reflexivity | exact Hcounter].
Defined.

(** X19. [begin] on a choice bag without candidate labels, with a textual
    prompt and the list style Auto: rendering the prompt raises when it reads
    the length of the missing list, and the exception leaves [begin]. By
    then the loop has already written every own property of the bag into
    the persisted data; no message has been sent. *)
Theorem begin_without_candidates_raises
    (env : Collaborators) (options : Prompts.IPromptsOptions)
    (args : IPromptArgs.t) (session : Session.t) (prompt : string) :
  let after := (Prompts.begin env options (Some args) session).1 in
  let bag :=
    IPromptArgs.setMaxRetries (Some (Prompts.orElse (IPromptArgs.maxRetries args) 1)) args in
  IPromptArgs.promptType args = Some PromptType.choice →
  IPromptArgs.enumValues args = None →
  IPromptArgs.listStyle args = Some ListStyle.auto →
  Prompts.basePrompt env options args false = Prompts.ChosenText prompt →
  is_Some (Prompts.begin env options (Some args) session).2
  ∧ Session.sent after = Session.sent session
  ∧ Session.ended after = Session.ended session
  ∧ ∀ key, key ∈ IPromptArgs.ownKeys bag →
      IPromptArgs.get (Session.dialogData after) key = IPromptArgs.get bag key.
Proof.
  intros after bag Hkind Hvalues Hstyle Hbase.
  destruct (begin_get env options (Some args) session) as [Hin _].
  split; [|split; [|split]]; [| | |exact Hin].
  all: unfold after, Prompts.begin; simpl; fold bag.
  all: set (copied := fold_left _ (IPromptArgs.ownKeys bag) session).
  all: destruct (copy_loop bag (IPromptArgs.ownKeys bag) session)
         as (_ & _ & Hsent & Hended & _); [done|]; fold copied in Hsent, Hended.
  all: assert (Hraise : Prompts.formatPrompt env options copied bag false
                        = Throw (typeError "length"))
         by (unfold Prompts.formatPrompt;
             change (Prompts.basePrompt env options bag false)
               with (Prompts.basePrompt env options args false);
             rewrite Hbase; simpl; rewrite Hkind, Hstyle, Hvalues; reflexivity).
  all: unfold Prompts.sendPrompt; rewrite Hraise; simpl; done.
Qed.

Lemma begin_without_candidates_raises_witness :
  let args :=
    IPromptArgs.setOthers (<["colour" := JString "teal"]> ∅)
      (IPromptArgs.setListStyle (Some ListStyle.auto) (Demo.args PromptType.choice "Pick")) in
  let after := (Prompts.begin Demo.plain Prompts.defaultOptions (Some args) Demo.fresh).1 in
  IPromptArgs.enumValues args = None
  ∧ is_Some (Prompts.begin Demo.plain Prompts.defaultOptions (Some args) Demo.fresh).2
  ∧ Session.sent after = []
  ∧ IPromptArgs.promptType (Session.dialogData after) = Some PromptType.choice
  ∧ IPromptArgs.others (Session.dialogData after) !! "colour" = Some (JString "teal").
Proof.
  intros args after. split; [reflexivity|].
  destruct (begin_without_candidates_raises Demo.plain Prompts.defaultOptions args Demo.fresh
              "Pick" eq_refl eq_refl eq_refl eq_refl) as (Hraised & Hsent & _ & _).
  split; [exact Hraised|]. split; [exact Hsent|]. split; reflexivity.
Defined.

(** X20. [Prompts.choice] starts a dialog that is rendered whenever the
    text of the prompt holds no percent sign. For any choices and options
    (whose [listStyle], when they have the property, is a list style), the
    bag it hands to [begin] is a choice with the expanded choices as
    candidate labels and with the list style of the options, or Auto when
    the options have none; [begin] on that bag stores the candidates,
    returns normally on every session and sends exactly one message. *)
Theorem choice_entry_always_begins
    {Choices : Type} (expandChoices : Choices -> list string)
    (env : Collaborators) (config : Prompts.IPromptsOptions)
    (prompt : PromptContent) (choices : Choices) (options : option IPromptArgs.t)
    (session : Session.t) :
  let bag := Entry.choice expandChoices prompt choices options in
  let after := (Prompts.begin env config (Some bag) session).1 in
  printfLaw env →
  (∀ text, Prompts.choose env (Some prompt) = Prompts.ChosenText text →
     holdsPercent text = false) →
  IPromptArgs.promptType bag = Some PromptType.choice
  ∧ IPromptArgs.enumValues bag = Some (expandChoices choices)
  ∧ IPromptArgs.listStyle bag
    = Some (default ListStyle.auto (IPromptArgs.listStyle (default IPromptArgs.empty options)))
  ∧ IPromptArgs.enumValues (Session.dialogData after) = Some (expandChoices choices)
  ∧ (Prompts.begin env config (Some bag) session).2 = None
  ∧ Session.ended after = Session.ended session
  ∧ ∃ msg, Session.sent after = Session.sent session ++ [msg].
Proof.
  intros bag after Hlaw Hfree.
  assert (Hrender : renderable env config
            (IPromptArgs.setMaxRetries (Some (Prompts.orElse (IPromptArgs.maxRetries bag) 1)) bag)
            false).
  { split; [intros _; by eexists|]. intros _ text Htext. by apply Hfree. }
  destruct (begin_returns env config (Some bag) session (fun _ => Hlaw) Hrender)
    as (Hnone & Hended & msg & _ & Hsent).
  destruct (begin_get env config (Some bag) session) as [Hin _].
  specialize (Hin "enumValues"). unfold IPromptArgs.get in Hin. simpl in Hin.
  assert (Hown : "enumValues" ∈ IPromptArgs.ownKeys
            (IPromptArgs.setMaxRetries
               (Some (Prompts.orElse (IPromptArgs.maxRetries bag) 1)) bag)).
  { unfold IPromptArgs.ownKeys. rewrite !elem_of_app. do 2 right. left.
    by apply list_elem_of_singleton. }
  specialize (Hin Hown). fold after in Hin.
  repeat split; try done.
  - unfold bag, Entry.choice. simpl.
    by destruct (IPromptArgs.listStyle (default IPromptArgs.empty options)).
  - destruct (IPromptArgs.enumValues (Session.dialogData after)); by inversion Hin.
  - by exists msg.
Qed.

Lemma choice_entry_always_begins_witness :
  let options := Some (IPromptArgs.setMaxRetries (Some 3%Z) IPromptArgs.empty) in
  let bag := Entry.choice (fun labels => labels) (Literal "Pick") Demo.colours options in
  let after := (Prompts.begin Demo.plain Prompts.defaultOptions (Some bag) Demo.fresh).1 in
  printfLaw Demo.plain
  ∧ (∀ text, Prompts.choose Demo.plain (Some (Literal "Pick")) = Prompts.ChosenText text →
       holdsPercent text = false)
  ∧ IPromptArgs.listStyle bag = Some ListStyle.auto
  ∧ (Prompts.begin Demo.plain Prompts.defaultOptions (Some bag) Demo.fresh).2 = None
  ∧ Session.sent after
    = [Some {| IMessage.text := "Pick 1. Red, 2. Green, or 3. Blue"; IMessage.language := None;
               IMessage.attachments := [] |}].
Proof.
  intros options bag after.
  assert (Hfree : ∀ text, Prompts.choose Demo.plain (Some (Literal "Pick"))
                          = Prompts.ChosenText text → holdsPercent text = false)
    by (intros text [= <-]; reflexivity).
  split; [apply printfLaw_examples|]. split; [exact Hfree|].
  destruct (choice_entry_always_begins (fun labels => labels) Demo.plain Prompts.defaultOptions
              (Literal "Pick") Demo.colours options Demo.fresh
              (printfLaw_examples [] 0 None) Hfree)
    as (_ & _ & Hstyle & _ & Hnone & _).
  split; [exact Hstyle|]. split; [exact Hnone | reflexivity].
Defined.

(** X21. [Prompts.text], [number], [confirm] and [time] start a dialog of
    their kind on every session: [begin] on the bag they build returns
    normally and sends exactly one message. The bag keeps the retry prompt
    and the [maxRetries] of the options; [Prompts.text] takes no options, so
    its dialog always starts with the counter 1. *)
Theorem plain_entries_always_begin
    (env : Collaborators) (config : Prompts.IPromptsOptions)
    (prompt : PromptContent) (question : string) (options : option IPromptArgs.t)
    (session : Session.t) (bag : IPromptArgs.t) (kind : PromptType.t) :
  (bag = Entry.text prompt ∧ kind = PromptType.text ∧ options = None)
  ∨ (bag = Entry.number prompt options ∧ kind = PromptType.number)
  ∨ (bag = Entry.confirm prompt options ∧ kind = PromptType.confirm)
  ∨ (bag = Entry.time question options ∧ kind = PromptType.time) →
  let after := (Prompts.begin env config (Some bag) session).1 in
  let given := default IPromptArgs.empty options in
  IPromptArgs.promptType (Session.dialogData after) = Some kind
  ∧ IPromptArgs.retryPrompt bag = IPromptArgs.retryPrompt given
  ∧ IPromptArgs.maxRetries (Session.dialogData after)
    = Some (Prompts.orElse (IPromptArgs.maxRetries given) 1)
  ∧ (Prompts.begin env config (Some bag) session).2 = None
  ∧ Session.ended after = Session.ended session
  ∧ ∃ msg, Session.sent after = Session.sent session ++ [msg].
Proof.
  intros Hbag after given.
  assert (Hfacts : IPromptArgs.promptType bag = Some kind
                   ∧ IPromptArgs.retryPrompt bag = IPromptArgs.retryPrompt given
                   ∧ IPromptArgs.maxRetries bag = IPromptArgs.maxRetries given).
  { unfold given. destruct Hbag as [(-> & -> & ->)|[[-> ->]|[[-> ->]|[-> ->]]]]; done. }
  destruct Hfacts as (Hkind & Hretry & Hcounter).
  assert (Hne : kind ≠ PromptType.choice).
  { destruct Hbag as [(_ & -> & _)|[[_ ->]|[[_ ->]|[_ ->]]]]; done. }
  assert (Hplain : IPromptArgs.promptType
                     (IPromptArgs.setMaxRetries
                        (Some (Prompts.orElse (IPromptArgs.maxRetries bag) 1)) bag)
                   ≠ Some PromptType.choice)
    by (simpl; rewrite Hkind; congruence).
  destruct (begin_returns env config (Some bag) session)
    as (Hnone & Hended & msg & _ & Hsent);
    [intros H; by destruct Hplain | split; intros H; by destruct Hplain |].
  destruct (begin_get env config (Some bag) session) as [Hin _].
  specialize (Hin "promptType"). unfold IPromptArgs.get in Hin. simpl in Hin.
  assert (Hown : "promptType" ∈ IPromptArgs.ownKeys
            (IPromptArgs.setMaxRetries
               (Some (Prompts.orElse (IPromptArgs.maxRetries bag) 1)) bag)).
  { unfold IPromptArgs.ownKeys. rewrite !elem_of_app. left. simpl. rewrite Hkind.
    by apply list_elem_of_singleton. }
  specialize (Hin Hown). fold after in Hin. rewrite Hkind in Hin.
  repeat split; try done.
  - destruct (IPromptArgs.promptType (Session.dialogData after)); by inversion Hin.
  - unfold after. rewrite begin_maxRetries. simpl. by rewrite Hcounter.
  - by exists msg.
Qed.

Lemma plain_entries_always_begin_witness :
  let options := Some (IPromptArgs.setMaxRetries (Some 3%Z) IPromptArgs.empty) in
  let bag := Entry.time "When?" options in
  let after := (Prompts.begin Demo.plain Prompts.defaultOptions (Some bag) Demo.fresh).1 in
  IPromptArgs.promptType (Session.dialogData after) = Some PromptType.time
  ∧ IPromptArgs.maxRetries (Session.dialogData after) = Some 3%Z
  ∧ Session.sent after = [Some (Prompts.textMessage "When?" [])].
Proof.
  intros options bag after.
  destruct (plain_entries_always_begin Demo.plain Prompts.defaultOptions (Literal "When?")
              "When?" options Demo.fresh bag PromptType.time
              (or_intror (or_intror (or_intror (conj eq_refl eq_refl)))))
    as (Hkind & _ & Hcounter & _).
  split; [exact Hkind|]. split; [exact Hcounter|]. reflexivity.
Defined.
